(** * hydrocomp: date alignment and comparison statistics

    A shallow embedding of [helpers.py], [statistics.py] and the [compare]
    function of [hydrocomp.py], followed by the properties the
    specification states about them.

    Conventions of the embedding:
    - a [datetime] is an integer timestamp ([Z]); only its total order and
      the difference of two timestamps are used by the code;
    - a one-dimensional numpy array is a [list]; the data arrays hold
      binary64 values ([float], the kernel's primitive floats);
    - a Python exception is a constructor of [exception], and a function
      that may raise returns a [result];
    - the two numpy reductions whose summation order is numpy's own
      ([np.mean], [np.corrcoef]) are the fields of the class [NumPy]. *)

From Stdlib Require Import ZArith Floats.
From stdpp Require Import base list strings gmap.

#[local] Set Warnings "-inexact-float".

(** ** Python exceptions and results *)

Inductive exception : Type :=
| ValueError (message : string)
| IndexError
| TypeError
| ZeroDivisionError.

Inductive result (A : Type) : Type :=
| Ok (a : A)
| Raise (e : exception).
Arguments Ok {A} a.
Arguments Raise {A} e.

#[global] Instance result_ret : MRet result := @Ok.
#[global] Instance result_bind : MBind result := λ A B f m,
  match m with
  | Ok a => f a
  | Raise e => Raise e
  end.

(** ** The Python and numpy primitives the code relies on *)

Module py.

(** [l[i]] for a Python integer [i]: a negative index counts from the
    end, an index out of range raises [IndexError]. *)
Definition getitem {A} (l : list A) (i : Z) : result A :=
  let n := Z.of_nat (length l) in
  let k := if (i <? 0)%Z then (n + i)%Z else i in
  if (k <? 0)%Z then Raise IndexError
  else match l !! Z.to_nat k with
       | Some a => Ok a
       | None => Raise IndexError
       end.

(** [l[i:j]] for indices [0 <= i] and [0 <= j]. *)
Definition slice {A} (l : list A) (i j : nat) : list A :=
  drop i (take j l).

(** [np.where(dates == d)[0]]: the positions holding [d], in order. *)
Fixpoint where_from (i : nat) (dates : list Z) (d : Z) : list nat :=
  match dates with
  | [] => []
  | x :: rest =>
      if (x =? d)%Z then i :: where_from (S i) rest d
      else where_from (S i) rest d
  end.

Definition np_where_eq (dates : list Z) (d : Z) : list nat :=
  where_from 0 dates d.

(** [int(a)] for an integer array [a]: only an array of exactly one
    element converts. *)
Definition int_of_array (a : list nat) : result nat :=
  match a with
  | [i] => Ok i
  | _ => Raise TypeError
  end.

(** Python numbers: the builtin [sum] starts from the integer [0], so
    the sum of an empty array is an [int], any other sum a float. *)
Inductive number : Type :=
| Int (z : Z)
| Float (f : float).

Definition float_of_Z (z : Z) : float :=
  SF2Prim (binary_normalize prec emax z 0 false).

Definition to_float (n : number) : float :=
  match n with
  | Int z => float_of_Z z
  | Float f => f
  end.

Definition add (a b : number) : number :=
  match a, b with
  | Int x, Int y => Int (x + y)
  | _, _ => Float (to_float a + to_float b)
  end.

Definition sub (a b : number) : number :=
  match a, b with
  | Int x, Int y => Int (x - y)
  | _, _ => Float (to_float a - to_float b)
  end.

(** [a / b] in Python 2: floor division of two integers, which raises
    on a zero divisor; a numpy float division never raises. *)
Definition div (a b : number) : result number :=
  match a, b with
  | Int x, Int y =>
      if (y =? 0)%Z then Raise ZeroDivisionError else Ok (Int (x / y))
  | _, _ => Ok (Float (to_float a / to_float b))
  end.

(** The builtin [sum(a)] over the elements of a float array. *)
Definition sum (a : list float) : number :=
  fold_left (λ acc x, add acc (Float x)) a (Int 0).

(** Elementwise arithmetic of two one-dimensional arrays with numpy's
    broadcasting: equal lengths pair up, an array of length one is
    stretched, any other pair of shapes raises. *)
Definition broadcast_error : exception :=
  ValueError "operands could not be broadcast together".

Definition broadcast (f : float → float → float) (x y : list float)
    : result (list float) :=
  if length x =? length y then Ok (zip_with f x y)
  else match x, y with
       | [a], _ => Ok (map (f a) y)
       | _, [b] => Ok (map (λ a, f a b) x)
       | _, _ => Raise broadcast_error
       end.

(** [a ** 2], evaluated by numpy as a product. *)
Definition square (a : float) : float := (a * a)%float.

End py.

(** ** helpers.py *)

Module helpers.

(** The dictionary [{'dates': ..., 'data': ...}] that [subset_data]
    returns. *)
Record subset (A : Type) : Type := Subset {
  dates : list Z;
  data : list A
}.
Arguments Subset {A} dates data.
Arguments dates {A} s.
Arguments data {A} s.

Definition length_error : exception :=
  ValueError "Lengths of dates and data are not equal!".

Definition subset_data {A} (dates : list Z) (data : list A)
    (start_date end_date : Z) : result (subset A) :=
  if negb (length dates =? length data) then Raise length_error
  else
    first_date ← py.getitem dates 0;
    last_date ← py.getitem dates (-1);
    let start_date :=
      if (start_date <? first_date)%Z || (start_date >? last_date)%Z
      then first_date else start_date in
    let end_date :=
      if (end_date >? last_date)%Z || (end_date <? first_date)%Z
      then last_date else end_date in
    start_idx ← py.int_of_array (py.np_where_eq dates start_date);
    end_idx ← py.int_of_array (py.np_where_eq dates end_date);
    let date_subset := py.slice dates start_idx (end_idx + 1) in
    let data_subset := py.slice data start_idx (end_idx + 1) in
    Ok (Subset date_subset data_subset).

Definition find_start_end_dates (model_dates observed_dates : list Z)
    : result (Z * Z) :=
  o0 ← py.getitem observed_dates 0;
  m0 ← py.getitem model_dates 0;
  let start_date := if (o0 >? m0)%Z then o0 else m0 in
  ol ← py.getitem observed_dates (-1);
  ml ← py.getitem model_dates (-1);
  let end_date := if (ol >? ml)%Z then ml else ol in
  Ok (start_date, end_date).

End helpers.

(** ** statistics.py *)

(** The numpy reductions used by the statistics. Their value on a float
    array depends on numpy's summation order, so they are taken as given:
    [np_mean a] is [np.mean(a)] and [np_corrcoef x y] is
    [np.corrcoef(x, y)[0, 1]]. *)
Class NumPy : Type := {
  np_mean : list float → float;
  np_corrcoef : list float → list float → result float
}.

Module statistics.
Section with_numpy.
Context `{NumPy}.

Definition absolute_error (x x_true : list float) : result (list float) :=
  py.broadcast PrimFloat.sub x x_true.

Definition mean_squared_error (x x_true : list float) : result float :=
  error ← absolute_error x x_true;
  let mse := np_mean (map py.square error) in
  Ok mse.

Definition relative_error (x x_true : list float) : result (list float) :=
  abs ← absolute_error x x_true;
  py.broadcast PrimFloat.div abs x_true.

Definition percent_error (x x_true : list float) : result (list float) :=
  rel ← relative_error x x_true;
  Ok (map (λ e, e * 100)%float rel).

(** [np.average((x, x_true), axis = 0)]: the mean of each pair. *)
Definition np_average_pair (x x_true : list float) : result (list float) :=
  py.broadcast (λ a b, (a + b) / 2)%float x x_true.

Definition percent_difference (x x_true : list float)
    : result (list float) :=
  avg ← np_average_pair x x_true;
  diff ← py.broadcast PrimFloat.sub x x_true;
  quot ← py.broadcast PrimFloat.div diff avg;
  Ok (map (λ e, e * 100)%float quot).

Definition r_squared (modeled observed : list float) : result float :=
  r ← np_corrcoef modeled observed;
  Ok (py.square r).

Definition nash_sutcliffe (modeled observed : list float)
    : result py.number :=
  let mean_observed := np_mean observed in
  diff ← py.broadcast PrimFloat.sub observed modeled;
  let numerator := py.sum (map py.square diff) in
  let denominator :=
    py.sum (map py.square (map (λ o, o - mean_observed)%float observed)) in
  quot ← py.div numerator denominator;
  Ok (py.sub (py.Int 1) quot).

End with_numpy.
End statistics.

(** ** hydrocomp.py *)

Module hydrocomp.

(** A value stored under a key of the [stats] dictionary. *)
Inductive value : Type :=
| Array (a : list float)
| Scalar (n : py.number).

(** The dictionary [comp_data]. Its keys are fixed; the entry [stats]
    is [None] until the statistics are stored, and the [stats]
    dictionary itself is a finite map whose entries start as [None]. *)
Record comp_data : Type := CompData {
  parameter_name : string;
  model_name : string;
  observed_name : string;
  modeled_parameter : list float;
  observed_parameter : list float;
  dates : list Z;
  timestep : Z;
  stats : option (gmap string (option value))
}.

Definition set_stats (c : comp_data)
    (s : option (gmap string (option value))) : comp_data :=
  CompData (parameter_name c) (model_name c) (observed_name c)
    (modeled_parameter c) (observed_parameter c) (dates c) (timestep c) s.

Definition length_error : exception :=
  ValueError "Lengths of modeled and observed are not equal!".

Definition empty_stats : gmap string (option value) :=
  <["relative_error" := None]>
    (<["percent_error" := None]>
      (<["percent_difference" := None]>
        (<["r_squared_coeff" := None]>
          (<["nash_sutcliffe_coeff" := None]> ∅)))).

Section with_numpy.
Context `{NumPy}.

Definition compare (parameter_name model_name observed_name : string)
    (modeled_parameter observed_parameter : list float) (dates : list Z)
    : result comp_data :=
  if negb (length modeled_parameter =? length observed_parameter)
  then Raise length_error
  else
    d1 ← py.getitem dates 1;
    d0 ← py.getitem dates 0;
    let comp_data :=
      CompData parameter_name model_name observed_name
        modeled_parameter observed_parameter dates (d1 - d0)%Z None in
    let stats := empty_stats in
    v ← statistics.relative_error modeled_parameter observed_parameter;
    let stats := <["relative_error" := Some (Array v)]> stats in
    v ← statistics.percent_error modeled_parameter observed_parameter;
    let stats := <["percent_error" := Some (Array v)]> stats in
    v ← statistics.percent_difference modeled_parameter observed_parameter;
    let stats := <["percent_difference" := Some (Array v)]> stats in
    v ← statistics.mean_squared_error modeled_parameter observed_parameter;
    let stats :=
      <["mean_squared_error" := Some (Scalar (py.Float v))]> stats in
    v ← statistics.r_squared modeled_parameter observed_parameter;
    let stats := <["r_squared_coeff" := Some (Scalar (py.Float v))]> stats in
    v ← statistics.nash_sutcliffe modeled_parameter observed_parameter;
    let stats := <["nash_sutcliffe_coeff" := Some (Scalar v)]> stats in
    Ok (set_stats comp_data (Some stats)).

End with_numpy.
End hydrocomp.

(** ** A reference numpy

    For running the code on small arrays: the mean as a left-to-right sum
    divided by the count, and Pearson's coefficient from the centred
    arrays. On the sample arrays of the docstrings of [statistics.py] it
    gives the values printed there, digit for digit. *)

Definition seq_sum (a : list float) : float :=
  fold_left PrimFloat.add a 0%float.

Definition seq_mean (a : list float) : float :=
  (seq_sum a / py.float_of_Z (Z.of_nat (length a)))%float.

Definition seq_corrcoef (x y : list float) : result float :=
  if negb (length x =? length y)
  then Raise (ValueError "all the input array dimensions must match")
  else
    let mx := seq_mean x in
    let my := seq_mean y in
    let dx := map (λ a, a - mx)%float x in
    let dy := map (λ b, b - my)%float y in
    let n1 := py.float_of_Z (Z.of_nat (length x) - 1) in
    let cxy := (seq_sum (zip_with PrimFloat.mul dx dy) / n1)%float in
    let cxx := (seq_sum (zip_with PrimFloat.mul dx dx) / n1)%float in
    let cyy := (seq_sum (zip_with PrimFloat.mul dy dy) / n1)%float in
    Ok (cxy / PrimFloat.sqrt (cxx * cyy))%float.

Definition seq_numpy : NumPy :=
  {| np_mean := seq_mean; np_corrcoef := seq_corrcoef |}.

(** ** Vocabulary of the specification *)

(** The boundary dates after the two clamping tests of [subset_data]. *)
Definition clamp_start (first_date last_date start_date : Z) : Z :=
  if (start_date <? first_date)%Z || (start_date >? last_date)%Z
  then first_date else start_date.

Definition clamp_end (first_date last_date end_date : Z) : Z :=
  if (end_date >? last_date)%Z || (end_date <? first_date)%Z
  then last_date else end_date.

(** [d] is the date of exactly one entry of [dates]. *)
Definition occurs_once (d : Z) (dates : list Z) : Prop :=
  count_occ Z.eq_dec dates d = 1.

(** Dates in non-decreasing order, and in strictly increasing order. *)
Definition ascending (dates : list Z) : Prop :=
  ∀ i j a b, i < j → dates !! i = Some a → dates !! j = Some b → (a ≤ b)%Z.

Definition strictly_ascending (dates : list Z) : Prop :=
  ∀ i j a b, i < j → dates !! i = Some a → dates !! j = Some b → (a < b)%Z.

(** [a[i]] for an index [i] inside the array. *)
Definition item (a : list float) (i : nat) : float := nth i a nan.

(** The array of length [n] whose entry at [i] is [f i]. *)
Definition elementwise (f : nat → float) (n : nat) : list float :=
  map f (seq 0 n).

(** The mean squared error in the specification's words: the mean of
    [(x[i] - x_true[i])^2] over all indices [i]. *)
Definition spec_mean_squared_error `{NumPy} (x x_true : list float) : float :=
  np_mean (elementwise (λ i, py.square (item x i - item x_true i)%float)
             (length x)).

(** The denominator of [nash_sutcliffe]: the sum of the squared
    deviations of [observed] from its mean. *)
Definition variance_sum `{NumPy} (observed : list float) : py.number :=
  py.sum (map py.square
            (map (λ o, o - np_mean observed)%float observed)).

(** The names of the six statistics that [compare] stores. *)
Definition statistic_names : list string :=
  ["relative_error"; "percent_error"; "percent_difference";
   "mean_squared_error"; "r_squared_coeff"; "nash_sutcliffe_coeff"].

(** A comparison result whose [stats] dictionary holds a value, not
    [None], under each of the six names and has no other key. *)
Definition fully_populated (c : hydrocomp.comp_data) : Prop :=
  ∃ st : gmap string (option hydrocomp.value),
    hydrocomp.stats c = Some st ∧
    (∀ name, name ∈ statistic_names → ∃ v, st !! name = Some (Some v)) ∧
    (∀ name, is_Some (st !! name) → name ∈ statistic_names).

(** The sample arrays of the docstrings of [statistics.py]. *)
Definition model_data : list float :=
  [55.5; 62.1; 65.3; 64.4; 61.2]%float.
Definition observed_data : list float :=
  [55.7; 62.0; 65.5; 64.7; 61.1]%float.

(** ** The comparison step of [main]

    The part of [main] in [hydrocomp.py] (and of the script
    [hydrocompgui.py]) between reading the two files and printing: the
    common range of the model and observed dates, the two subsets, and
    the comparison of the subsets over the observed dates. *)
Definition main_compare `{NumPy}
    (user_parameter model_name observed_name : string)
    (water_dates : list Z) (water_parameter : list float)
    (nwis_dates : list Z) (nwis_parameter : list float)
    : result hydrocomp.comp_data :=
  range ← helpers.find_start_end_dates water_dates nwis_dates;
  let start_date := range.1 in
  let end_date := range.2 in
  water_data_subset ←
    helpers.subset_data water_dates water_parameter start_date end_date;
  nwis_data_subset ←
    helpers.subset_data nwis_dates nwis_parameter start_date end_date;
  hydrocomp.compare user_parameter model_name observed_name
    (helpers.data water_data_subset) (helpers.data nwis_data_subset)
    (helpers.dates nwis_data_subset).

(** ** More vocabulary *)

(** The date [d] lies in the inclusive window from [s] to [e]. *)
Definition in_window (s e d : Z) : Prop := (s ≤ d ≤ e)%Z.

#[global] Instance in_window_dec (s e d : Z) : Decision (in_window s e d).
Proof. unfold in_window. apply _. Defined.

(** The dates of a series inside a window, and the values recorded at
    those dates. *)
Definition window_dates (s e : Z) (dates : list Z) : list Z :=
  filter (in_window s e) dates.

Definition window_data {A} (s e : Z) (dates : list Z) (data : list A)
    : list A :=
  (filter (λ p : Z * A, in_window s e p.1) (zip dates data)).*2.

(** Keys in strictly increasing order along a list. *)
Definition increasing_keys {B} (key : B → Z) (l : list B) : Prop :=
  ∀ i j a b, i < j → l !! i = Some a → l !! j = Some b → (key a < key b)%Z.

(** ** water.py: the search for the header line

    The loop at the start of [read_water] that looks through the lines
    of the file for the one whose first tab-separated field is ["Date"]. *)
Module water.

(** The tab character. *)
Definition tab : Ascii.ascii := Ascii.ascii_of_nat 9.

(** [line.split(tab)[0]]: the text of [line] before its first tab. *)
Fixpoint first_field (line : string) : string :=
  match line with
  | EmptyString => EmptyString
  | String c rest =>
      if Ascii.eqb c tab then EmptyString
      else String c (first_field rest)
  end.

Definition date_code : string := "Date".

(** One turn of the loop over the state [(idx, k)]: [idx] is unbound
    ([None]) until a matching line is seen, and [k] is incremented on
    the other lines only. *)
Definition header_step (searchword : string) (state : option nat * nat)
    (line : string) : option nat * nat :=
  if String.eqb searchword (first_field line)
  then (Some state.2, state.2)
  else (state.1, state.2 + 1).

(** The value of [idx] after the loop. *)
Definition header_index (dataFile : list string) : option nat :=
  (fold_left (header_step date_code) dataFile (None, 0)).1.

End water.

(** The line made of the given tab-separated fields. *)
Definition tab_separated (fields : list string) : string :=
  match fields with
  | [] => EmptyString
  | field :: rest =>
      fold_left
        (λ line f, String.append line (String water.tab f)) rest field
  end.

(** A line of the file that the search takes for the header. *)
Definition is_header (line : string) : Prop :=
  water.first_field line = water.date_code.

#[global] Instance is_header_dec (line : string) : Decision (is_header line).
Proof. unfold is_header. apply _. Defined.

(** Case analysis on every comparison of two dates in the goal. *)
Ltac compare_dates :=
  rewrite ?Z.gtb_ltb;
  repeat match goal with
         | |- context [(?a <? ?b)%Z] =>
             is_var a; is_var b; destruct (Z.ltb_spec a b); simpl
         end.

(** * Examples *)

(** The values the docstrings of [statistics.py] print. *)
Example mean_squared_error_docstring :
  @statistics.mean_squared_error seq_numpy model_data observed_data
  = Ok 0.038000000000000228%float.
Proof. vm_compute. reflexivity. Qed.

Example r_squared_docstring :
  @statistics.r_squared seq_numpy model_data observed_data
  = Ok 0.99768587638100936%float.
Proof. vm_compute. reflexivity. Qed.

Example nash_sutcliffe_docstring :
  @statistics.nash_sutcliffe seq_numpy model_data observed_data
  = Ok (py.Float 0.99682486631016043).
Proof. vm_compute. reflexivity. Qed.

Example percent_error_docstring :
  statistics.percent_error model_data observed_data
  = Ok [-0.35906642728905358; 0.16129032258064746; -0.30534351145038602;
        -0.46367851622874362; 0.16366612111293194]%float.
Proof. vm_compute. reflexivity. Qed.

Example subset_data_window :
  helpers.subset_data [1; 2; 3; 4; 5]%Z [10; 20; 30; 40; 50]%Z 2 4
  = Ok (helpers.Subset [2; 3; 4]%Z [20; 30; 40]%Z).
Proof. reflexivity. Qed.

(** Model dates span day 1 to 10, observed dates day 5 to 15. *)
Example find_start_end_dates_overlap :
  helpers.find_start_end_dates
    [1; 2; 3; 4; 5; 6; 7; 8; 9; 10]%Z
    [5; 6; 7; 8; 9; 10; 11; 12; 13; 14; 15]%Z
  = Ok (5, 10)%Z.
Proof. reflexivity. Qed.

(** Both series cut to the common range of day 5 to day 10 keep six
    entries each. *)
Example aligned_subsets_have_six_entries :
  helpers.subset_data [1; 2; 3; 4; 5; 6; 7; 8; 9; 10]%Z
    [1; 2; 3; 4; 5; 6; 7; 8; 9; 10]%float 5 10
  = Ok (helpers.Subset [5; 6; 7; 8; 9; 10]%Z [5; 6; 7; 8; 9; 10]%float) ∧
  helpers.subset_data [5; 6; 7; 8; 9; 10; 11; 12; 13; 14; 15]%Z
    [5; 6; 7; 8; 9; 10; 11; 12; 13; 14; 15]%float 5 10
  = Ok (helpers.Subset [5; 6; 7; 8; 9; 10]%Z [5; 6; 7; 8; 9; 10]%float).
Proof. split; reflexivity. Qed.

(** * Python primitives *)

Lemma bind_Ok {A B} (a : A) (f : A → result B) : Ok a ≫= f = f a.
Proof. reflexivity. Qed.

Lemma bind_Raise {A B} (e : exception) (f : A → result B) :
  Raise e ≫= f = Raise e.
Proof. reflexivity. Qed.

Section py_facts.
Context {A : Type}.
Implicit Types l : list A.

Lemma getitem_nil (i : Z) : py.getitem (@nil A) i = Raise IndexError.
Proof.
  unfold py.getitem. cbv zeta.
  destruct (_ <? 0)%Z; [reflexivity|]. rewrite lookup_nil. reflexivity.
Qed.

Lemma getitem_first l a : head l = Some a → py.getitem l 0 = Ok a.
Proof.
  destruct l as [|x l]; simpl; [discriminate|]. intros [= ->]. reflexivity.
Qed.

Lemma getitem_last l a : last l = Some a → py.getitem l (-1) = Ok a.
Proof.
  intros Hl. rewrite last_lookup in Hl.
  assert (length l ≠ 0) as Hn.
  { intros H0. apply length_zero_iff_nil in H0. subst l. discriminate. }
  unfold py.getitem.
  replace (-1 <? 0)%Z with true by reflexivity.
  destruct (Z.ltb_spec (Z.of_nat (length l) + -1) 0) as [Hlt|_]; [lia|].
  replace (Z.to_nat (Z.of_nat (length l) + -1)) with (pred (length l)) by lia.
  rewrite Hl. reflexivity.
Qed.

Lemma slice_all l (n : nat) : length l ≤ n → py.slice l 0 n = l.
Proof. intros Hn. unfold py.slice. rewrite drop_0. apply take_ge. exact Hn. Qed.

Lemma slice_length l (i j : nat) :
  j ≤ length l → length (py.slice l i j) = j - i.
Proof. intros Hj. unfold py.slice. rewrite length_drop, length_take. lia. Qed.

Lemma slice_lookup l (i j k : nat) :
  i + k < j → py.slice l i j !! k = l !! (i + k).
Proof.
  intros Hk. unfold py.slice. rewrite lookup_drop, lookup_take_lt by lia.
  reflexivity.
Qed.

End py_facts.

(** ** Looking up a date *)

Lemma where_from_length (k : nat) (dates : list Z) (d : Z) :
  length (py.where_from k dates d) = count_occ Z.eq_dec dates d.
Proof.
  revert k. induction dates as [|x dates IH]; intros k; simpl; [reflexivity|].
  destruct (Z.eqb_spec x d) as [->|Hne].
  - destruct (Z.eq_dec d d) as [_|Hdd]; [|contradiction].
    simpl. f_equal. apply IH.
  - destruct (Z.eq_dec x d) as [Heq|_]; [contradiction|]. apply IH.
Qed.

Lemma where_from_once (k i : nat) (dates : list Z) (d : Z) :
  dates !! i = Some d → occurs_once d dates →
  py.where_from k dates d = [k + i].
Proof.
  unfold occurs_once. revert k i.
  induction dates as [|x dates IH]; intros k i Hi Hc; [discriminate|].
  simpl in *. destruct (Z.eqb_spec x d) as [->|Hne].
  - destruct (Z.eq_dec d d) as [_|Hdd]; [|contradiction].
    injection Hc as Hc. destruct i as [|i].
    + rewrite <- (where_from_length (S k)) in Hc.
      apply length_zero_iff_nil in Hc. rewrite Hc. f_equal. lia.
    + exfalso. simpl in Hi. apply list_elem_of_lookup_2, list_elem_of_In in Hi.
      apply (count_occ_In Z.eq_dec) in Hi. lia.
  - destruct (Z.eq_dec x d) as [Heq|_]; [contradiction|].
    destruct i as [|i]; simpl in Hi.
    + congruence.
    + rewrite (IH (S k) i Hi Hc). f_equal. lia.
Qed.

Lemma where_from_single (k n : nat) (dates : list Z) (d : Z) :
  py.where_from k dates d = [n] →
  ∃ i, n = k + i ∧ dates !! i = Some d ∧ occurs_once d dates.
Proof.
  intros Hw.
  assert (occurs_once d dates) as Hc.
  { unfold occurs_once. rewrite <- (where_from_length k), Hw. reflexivity. }
  assert (d ∈ dates) as Hin.
  { apply list_elem_of_In, (count_occ_In Z.eq_dec).
    unfold occurs_once in Hc. lia. }
  apply list_elem_of_lookup in Hin as [i Hi].
  exists i. rewrite (where_from_once k i dates d Hi Hc) in Hw.
  injection Hw as <-. auto.
Qed.

Lemma int_of_where_once (i : nat) (dates : list Z) (d : Z) :
  dates !! i = Some d → occurs_once d dates →
  py.int_of_array (py.np_where_eq dates d) = Ok i.
Proof.
  intros Hi Hc. unfold py.np_where_eq.
  rewrite (where_from_once 0 i dates d Hi Hc). reflexivity.
Qed.

Lemma int_of_where_inv (n : nat) (dates : list Z) (d : Z) :
  py.int_of_array (py.np_where_eq dates d) = Ok n →
  dates !! n = Some d ∧ occurs_once d dates.
Proof.
  unfold py.np_where_eq, py.int_of_array.
  destruct (py.where_from 0 dates d) as [|m [|m' rest]] eqn:Hw;
    try discriminate.
  intros [= ->]. apply where_from_single in Hw as (i & -> & Hi & Hc). auto.
Qed.

Lemma int_of_where_no_value_error (dates : list Z) (d : Z) (msg : string) :
  py.int_of_array (py.np_where_eq dates d) ≠ Raise (ValueError msg).
Proof.
  unfold py.int_of_array.
  destruct (py.np_where_eq dates d) as [|m [|m' rest]]; discriminate.
Qed.

(** * helpers.py: the common range and the subset *)

Section subset_facts.
Context {A : Type}.
Implicit Types (dates : list Z) (data : list A).

(** On a non-empty series of equal lengths the body of [subset_data]
    reduces to the two lookups and the slices. *)
Lemma subset_data_body dates data (d0 dl s e : Z) :
  length dates = length data →
  head dates = Some d0 → last dates = Some dl →
  helpers.subset_data dates data s e =
    (start_idx ← py.int_of_array
                   (py.np_where_eq dates (clamp_start d0 dl s));
     end_idx ← py.int_of_array
                 (py.np_where_eq dates (clamp_end d0 dl e));
     Ok (helpers.Subset (py.slice dates start_idx (end_idx + 1))
                        (py.slice data start_idx (end_idx + 1)))).
Proof.
  intros Hlen Hfirst Hlast. unfold helpers.subset_data.
  rewrite Hlen, Nat.eqb_refl. simpl negb. cbv iota.
  rewrite (getitem_first _ _ Hfirst). simpl.
  rewrite (getitem_last _ _ Hlast). reflexivity.
Qed.

Lemma subset_data_mismatch dates data (s e : Z) :
  length dates ≠ length data →
  helpers.subset_data dates data s e = Raise helpers.length_error.
Proof.
  intros Hne. unfold helpers.subset_data.
  apply Nat.eqb_neq in Hne. rewrite Hne. reflexivity.
Qed.

Lemma subset_data_empty data (s e : Z) :
  length (@nil Z) = length data →
  helpers.subset_data [] data s e = Raise IndexError.
Proof.
  intros Hlen. unfold helpers.subset_data.
  rewrite <- Hlen, Nat.eqb_refl. reflexivity.
Qed.

(** What a successful call establishes. *)
Lemma subset_data_inv dates data (s e : Z) (r : helpers.subset A) :
  helpers.subset_data dates data s e = Ok r →
  ∃ d0 dl i j,
    length dates = length data ∧
    head dates = Some d0 ∧ last dates = Some dl ∧
    dates !! i = Some (clamp_start d0 dl s) ∧
    occurs_once (clamp_start d0 dl s) dates ∧
    dates !! j = Some (clamp_end d0 dl e) ∧
    occurs_once (clamp_end d0 dl e) dates ∧
    r = helpers.Subset (py.slice dates i (j + 1)) (py.slice data i (j + 1)).
Proof.
  intros Hok.
  destruct (decide (length dates = length data)) as [Hlen|Hne];
    [|rewrite (subset_data_mismatch _ _ _ _ Hne) in Hok; discriminate].
  destruct dates as [|d rest] eqn:Hd;
    [rewrite (subset_data_empty _ _ _ Hlen) in Hok; discriminate|].
  rewrite <- Hd in *.
  assert (head dates = Some d) as Hfirst by (subst dates; reflexivity).
  assert (∃ dl, last dates = Some dl) as [dl Hlast].
  { destruct (last dates) eqn:Hl; [eauto|].
    apply last_None in Hl. subst dates. discriminate. }
  rewrite (subset_data_body _ _ d dl s e Hlen Hfirst Hlast) in Hok.
  destruct (py.int_of_array (py.np_where_eq dates (clamp_start d dl s)))
    as [i|] eqn:Hi; [|discriminate].
  destruct (py.int_of_array (py.np_where_eq dates (clamp_end d dl e)))
    as [j|] eqn:Hj; [|discriminate].
  simpl in Hok. injection Hok as <-.
  apply int_of_where_inv in Hi as [Hi Hci].
  apply int_of_where_inv in Hj as [Hj Hcj].
  exists d, dl, i, j. auto 10.
Qed.

End subset_facts.

(** The clamped boundaries stay clamped when the window is looked at from
    inside the subset: the facts behind idempotence. *)
Lemma clamp_start_again (d0 dl s e : Z) :
  clamp_start (clamp_start d0 dl s) (clamp_end d0 dl e) s
  = clamp_start d0 dl s.
Proof.
  unfold clamp_start, clamp_end. compare_dates; lia.
Qed.

Lemma clamp_end_again (d0 dl s e : Z) :
  clamp_end (clamp_start d0 dl s) (clamp_end d0 dl e) e
  = clamp_end d0 dl e.
Proof.
  unfold clamp_start, clamp_end. compare_dates; lia.
Qed.

Lemma occurs_once_slice (dates : list Z) (d : Z) (i j k : nat) :
  occurs_once d dates → py.slice dates i j !! k = Some d →
  occurs_once d (py.slice dates i j).
Proof.
  unfold occurs_once, py.slice. intros Hc Hk.
  assert (0 < count_occ Z.eq_dec (drop i (take j dates)) d) as Hpos.
  { apply (count_occ_In Z.eq_dec), list_elem_of_In.
    eapply list_elem_of_lookup_2, Hk. }
  assert (count_occ Z.eq_dec (drop i (take j dates)) d
          ≤ count_occ Z.eq_dec dates d) as Hle.
  { rewrite <- (take_drop j dates) at 2.
    rewrite <- (take_drop i (take j dates)) at 2.
    rewrite !count_occ_app. lia. }
  lia.
Qed.

Lemma occurs_once_unique (dates : list Z) (d : Z) (i j : nat) :
  occurs_once d dates → dates !! i = Some d → dates !! j = Some d → i = j.
Proof.
  intros Hc Hi Hj.
  pose proof (where_from_once 0 i dates d Hi Hc) as Hwi.
  pose proof (where_from_once 0 j dates d Hj Hc) as Hwj.
  rewrite Hwi in Hwj. injection Hwj as Hij. exact Hij.
Qed.

Lemma occurs_once_index (dates : list Z) (d : Z) (i : nat) :
  dates !! i = Some d → (∀ j, dates !! j = Some d → j = i) →
  occurs_once d dates.
Proof.
  unfold occurs_once. revert i.
  induction dates as [|x dates IH]; intros i Hi Huniq; [discriminate|].
  simpl. destruct (Z.eq_dec x d) as [->|Hne].
  - f_equal. apply (count_occ_not_In Z.eq_dec). intros Hin.
    apply list_elem_of_In, list_elem_of_lookup in Hin as [j Hj].
    pose proof (Huniq (S j) Hj). pose proof (Huniq 0 eq_refl). lia.
  - destruct i as [|i]; simpl in Hi; [congruence|].
    apply (IH i Hi). intros j Hj. specialize (Huniq (S j) Hj). lia.
Qed.

Lemma strictly_ascending_occurs_once (dates : list Z) (d : Z) (i : nat) :
  strictly_ascending dates → dates !! i = Some d → occurs_once d dates.
Proof.
  intros Hasc Hi. apply (occurs_once_index dates d i Hi). intros j Hj.
  destruct (Nat.lt_trichotomy i j) as [Hlt|[Heq|Hgt]]; [|auto|].
  - specialize (Hasc i j d d Hlt Hi Hj). lia.
  - specialize (Hasc j i d d Hgt Hj Hi). lia.
Qed.

Lemma ascending_first_last (dates : list Z) (d0 dl : Z) :
  ascending dates → head dates = Some d0 → last dates = Some dl →
  (d0 ≤ dl)%Z.
Proof.
  intros Hasc Hfirst Hlast. rewrite head_lookup in Hfirst.
  rewrite last_lookup in Hlast.
  destruct (decide (pred (length dates) = 0)) as [Hz|Hz].
  - rewrite Hz in Hlast. assert (d0 = dl) by congruence. lia.
  - apply (Hasc 0 (pred (length dates)) d0 dl); [lia|assumption..].
Qed.

Lemma clamp_order (d0 dl s e : Z) :
  (d0 ≤ dl)%Z → (s ≤ e)%Z → (clamp_start d0 dl s ≤ clamp_end d0 dl e)%Z.
Proof.
  intros Hd Hse. unfold clamp_start, clamp_end. compare_dates; lia.
Qed.

(** C2. For non-empty date sequences, [find_start_end_dates] returns the
    later of the two first dates and the earlier of the two last dates:
    with [model_dates[0] = m0], [model_dates[-1] = ml],
    [observed_dates[0] = o0] and [observed_dates[-1] = ol], the result is
    the pair [(max m0 o0, min ml ol)]. Ascending order is not needed. *)
Theorem find_start_end_dates_max_min
    (model_dates observed_dates : list Z) (m0 ml o0 ol : Z) :
  head model_dates = Some m0 → last model_dates = Some ml →
  head observed_dates = Some o0 → last observed_dates = Some ol →
  helpers.find_start_end_dates model_dates observed_dates
  = Ok (Z.max m0 o0, Z.min ml ol).
Proof.
  intros Hm0 Hml Ho0 Hol. unfold helpers.find_start_end_dates.
  rewrite (getitem_first _ _ Ho0). simpl.
  rewrite (getitem_first _ _ Hm0). simpl.
  rewrite (getitem_last _ _ Hol). simpl.
  rewrite (getitem_last _ _ Hml). simpl.
  compare_dates; do 2 f_equal; lia.
Qed.

Lemma find_start_end_dates_max_min_witness :
  helpers.find_start_end_dates [1; 4; 9]%Z [3; 4; 12]%Z
  = Ok (Z.max 1 3, Z.min 9 12).
Proof.
  exact (find_start_end_dates_max_min [1; 4; 9]%Z [3; 4; 12]%Z 1 9 3 12
           eq_refl eq_refl eq_refl eq_refl).
Defined.

(** C9. [subset_data] raises its length error exactly when the lengths
    of [dates] and [data] differ, whatever the rest of the input is (even
    an empty [dates], on which the first indexing would raise); with
    equal lengths it raises no [ValueError] at all. *)
Theorem subset_data_length_check {A} (dates : list Z) (data : list A)
    (start_date end_date : Z) :
  (length dates ≠ length data →
   helpers.subset_data dates data start_date end_date
   = Raise helpers.length_error) ∧
  (length dates = length data →
   ∀ message, helpers.subset_data dates data start_date end_date
              ≠ Raise (ValueError message)).
Proof.
  split; [apply subset_data_mismatch|].
  intros Hlen message.
  destruct dates as [|d rest] eqn:Hd.
  { rewrite (subset_data_empty _ _ _ Hlen). discriminate. }
  rewrite <- Hd in *.
  assert (head dates = Some d) as Hfirst by (subst dates; reflexivity).
  assert (∃ dl, last dates = Some dl) as [dl Hlast].
  { destruct (last dates) eqn:Hl; [eauto|].
    apply last_None in Hl. subst dates. discriminate. }
  rewrite (subset_data_body _ _ d dl _ _ Hlen Hfirst Hlast).
  pose proof (int_of_where_no_value_error dates
                (clamp_start d dl start_date) message) as Hs.
  pose proof (int_of_where_no_value_error dates
                (clamp_end d dl end_date) message) as He.
  destruct (py.int_of_array
              (py.np_where_eq dates (clamp_start d dl start_date)))
    as [i|err]; simpl; [|intros [= ->]; contradiction].
  destruct (py.int_of_array (py.np_where_eq dates (clamp_end d dl end_date)))
    as [j|err']; simpl; [discriminate|intros [= ->]; contradiction].
Qed.

Lemma subset_data_length_check_witness :
  helpers.subset_data [] [1%float] 0 0 = Raise helpers.length_error.
Proof.
  apply (proj1 (subset_data_length_check [] [1%float] 0 0)).
  simpl. lia.
Defined.

(** C10. Whenever [subset_data] succeeds, the dates subset and the data
    subset it returns have the same length. *)
Theorem subset_data_equal_lengths {A} (dates : list Z) (data : list A)
    (start_date end_date : Z) (r : helpers.subset A) :
  helpers.subset_data dates data start_date end_date = Ok r →
  length (helpers.dates r) = length (helpers.data r).
Proof.
  intros Hok.
  apply subset_data_inv in Hok
    as (d0 & dl & i & j & Hlen & _ & _ & _ & _ & Hj & _ & ->).
  apply lookup_lt_Some in Hj. simpl.
  rewrite !slice_length by lia. reflexivity.
Qed.

Lemma subset_data_equal_lengths_witness :
  length [2; 3; 4]%Z = length [20; 30; 40]%float.
Proof.
  exact (subset_data_equal_lengths
           [1; 2; 3; 4; 5]%Z [10; 20; 30; 40; 50]%float 2 4
           (helpers.Subset [2; 3; 4]%Z [20; 30; 40]%float) eq_refl).
Defined.

(** C3, as stated, fails where the first date is repeated: the window is
    clamped to [dates[0]], which [np.where] then finds twice. *)
Lemma subset_data_clamp_repeated_first :
  helpers.subset_data [1; 1; 2]%Z [10; 20; 30]%float 0 3 = Raise TypeError.
Proof. reflexivity. Qed.

(** C3 (amended). On a non-empty series of equal lengths, a [start_date]
    outside [[dates[0], dates[-1]]] is treated as [dates[0]] and an
    [end_date] outside that range as [dates[-1]]; and when [dates[0]] and
    [dates[-1]] each occur once in [dates], as they do when the dates
    are strictly ascending, a window that starts before [dates[0]] and
    ends after [dates[-1]] returns the whole series. *)
Theorem subset_data_clamps {A} (dates : list Z) (data : list A)
    (d0 dl start_date end_date : Z) :
  length dates = length data →
  head dates = Some d0 → last dates = Some dl →
  ((start_date < d0 ∨ dl < start_date)%Z →
   helpers.subset_data dates data start_date end_date
   = helpers.subset_data dates data d0 end_date) ∧
  ((dl < end_date ∨ end_date < d0)%Z →
   helpers.subset_data dates data start_date end_date
   = helpers.subset_data dates data start_date dl) ∧
  (occurs_once d0 dates → occurs_once dl dates →
   (start_date < d0)%Z → (dl < end_date)%Z →
   helpers.subset_data dates data start_date end_date
   = Ok (helpers.Subset dates data)) ∧
  (strictly_ascending dates → occurs_once d0 dates ∧ occurs_once dl dates).
Proof.
  intros Hlen Hfirst Hlast.
  assert (∀ s, (s < d0 ∨ dl < s)%Z → clamp_start d0 dl s = d0) as Hcs.
  { intros s Hs. unfold clamp_start. compare_dates; lia. }
  assert (∀ e, (dl < e ∨ e < d0)%Z → clamp_end d0 dl e = dl) as Hce.
  { intros e He. unfold clamp_end. compare_dates; lia. }
  assert (clamp_start d0 dl d0 = d0) as Hcs0.
  { unfold clamp_start. rewrite Z.gtb_ltb, Z.ltb_irrefl.
    destruct (dl <? d0)%Z; reflexivity. }
  assert (clamp_end d0 dl dl = dl) as Hcel.
  { unfold clamp_end. rewrite Z.gtb_ltb, Z.ltb_irrefl.
    destruct (dl <? d0)%Z; reflexivity. }
  repeat split.
  - intros Hs.
    rewrite !(subset_data_body _ _ d0 dl _ _ Hlen Hfirst Hlast).
    rewrite (Hcs _ Hs), Hcs0. reflexivity.
  - intros He.
    rewrite !(subset_data_body _ _ d0 dl _ _ Hlen Hfirst Hlast).
    rewrite (Hce _ He), Hcel. reflexivity.
  - intros Hc0 Hcl Hs He.
    rewrite (subset_data_body _ _ d0 dl _ _ Hlen Hfirst Hlast).
    rewrite (Hcs start_date), (Hce end_date) by lia.
    rewrite head_lookup in Hfirst. rewrite last_lookup in Hlast.
    rewrite (int_of_where_once _ _ _ Hfirst Hc0). simpl.
    rewrite (int_of_where_once _ _ _ Hlast Hcl). simpl.
    apply lookup_lt_Some in Hlast.
    rewrite !slice_all by lia. reflexivity.
  - rewrite head_lookup in Hfirst.
    eapply strictly_ascending_occurs_once; eassumption.
  - rewrite last_lookup in Hlast.
    eapply strictly_ascending_occurs_once; eassumption.
Qed.

Lemma subset_data_clamps_witness :
  helpers.subset_data [3; 5; 8]%Z [1; 2; 3]%float 1 9
  = Ok (helpers.Subset [3; 5; 8]%Z [1; 2; 3]%float).
Proof.
  apply (proj1 (proj2 (proj2
    (subset_data_clamps [3; 5; 8]%Z [1; 2; 3]%float 3 8 1 9
       eq_refl eq_refl eq_refl)))).
  - reflexivity.
  - reflexivity.
  - lia.
  - lia.
Defined.

(** C8, as stated, fails on a window whose start date lies after its end
    date: the first call returns an empty subset, on which the second
    call raises at [dates[0]]. *)
Lemma subset_data_twice_reversed_window :
  helpers.subset_data [1; 2; 3]%Z [10; 20; 30]%float 3 1
  = Ok (helpers.Subset [] []) ∧
  helpers.subset_data [] (@nil float) 3 1 = Raise IndexError.
Proof. split; reflexivity. Qed.

(** C8 (amended). Whenever [subset_data] returns a non-empty subset,
    applying it to the returned dates and data with the same window
    returns that subset again; and the subset it returns is non-empty
    whenever the dates are ascending and [start_date <= end_date]. *)
Theorem subset_data_idempotent {A} (dates : list Z) (data : list A)
    (start_date end_date : Z) (r : helpers.subset A) :
  helpers.subset_data dates data start_date end_date = Ok r →
  (helpers.dates r ≠ [] →
   helpers.subset_data (helpers.dates r) (helpers.data r)
     start_date end_date = Ok r) ∧
  (ascending dates → (start_date ≤ end_date)%Z → helpers.dates r ≠ []).
Proof.
  intros Hok.
  apply subset_data_inv in Hok
    as (d0 & dl & i & j & Hlen & Hfirst & Hlast & Hi & Hci & Hj & Hcj & ->).
  simpl.
  set (s' := clamp_start d0 dl start_date) in *.
  set (e' := clamp_end d0 dl end_date) in *.
  set (ds := py.slice dates i (j + 1)) in *.
  pose proof (lookup_lt_Some _ _ _ Hi) as Hilt.
  pose proof (lookup_lt_Some _ _ _ Hj) as Hjlt.
  assert (length ds = j + 1 - i) as Hlds by (apply slice_length; lia).
  split.
  - intros Hne.
    assert (i ≤ j) as Hij.
    { destruct ds eqn:Hds; [contradiction|]. simpl in Hlds. lia. }
    assert (ds !! 0 = Some s') as Hds0.
    { unfold ds. rewrite slice_lookup by lia. rewrite Nat.add_0_r. exact Hi. }
    assert (ds !! (j - i) = Some e') as Hdsl.
    { unfold ds. rewrite slice_lookup by lia.
      replace (i + (j - i)) with j by lia. exact Hj. }
    assert (length ds = length (py.slice data i (j + 1))) as Hlen'.
    { rewrite Hlds. symmetry. apply slice_length. lia. }
    rewrite (subset_data_body ds _ s' e' start_date end_date Hlen').
    + unfold s' at 1 2, e' at 1 2.
      rewrite clamp_start_again, clamp_end_again. fold s' e'.
      rewrite (int_of_where_once 0 ds s' Hds0
                 (occurs_once_slice _ _ _ _ _ Hci Hds0)). simpl.
      rewrite (int_of_where_once (j - i) ds e' Hdsl
                 (occurs_once_slice _ _ _ _ _ Hcj Hdsl)). simpl.
      rewrite !slice_all by lia. reflexivity.
    + rewrite head_lookup. exact Hds0.
    + rewrite last_lookup, Hlds.
      replace (pred (j + 1 - i)) with (j - i) by lia. exact Hdsl.
  - intros Hasc Hse Hnil.
    pose proof (ascending_first_last dates d0 dl Hasc Hfirst Hlast) as Hd.
    pose proof (clamp_order d0 dl start_date end_date Hd Hse) as Hle.
    fold s' e' in Hle.
    rewrite Hnil in Hlds. simpl in Hlds.
    assert (j < i) as Hji by lia.
    pose proof (Hasc j i e' s' Hji Hj Hi) as Hge.
    assert (e' = s') as Heq by lia.
    rewrite Heq in Hj.
    pose proof (occurs_once_unique dates s' i j Hci Hi Hj). lia.
Qed.

Lemma subset_data_idempotent_witness :
  helpers.subset_data [2; 3; 4]%Z [20; 30; 40]%float 2 4
  = Ok (helpers.Subset [2; 3; 4]%Z [20; 30; 40]%float).
Proof.
  apply (proj1 (subset_data_idempotent
                  [1; 2; 3; 4; 5]%Z [10; 20; 30; 40; 50]%float 2 4
                  (helpers.Subset [2; 3; 4]%Z [20; 30; 40]%float) eq_refl)).
  simpl. discriminate.
Defined.

(** * statistics.py *)

Lemma elementwise_length (f : nat → float) (n : nat) :
  length (elementwise f n) = n.
Proof. unfold elementwise. rewrite length_map, length_seq. reflexivity. Qed.

Lemma elementwise_item (f : nat → float) (n i : nat) :
  i < n → item (elementwise f n) i = f i.
Proof.
  intros Hi. unfold item, elementwise. apply nth_lookup_Some.
  rewrite list_lookup_fmap, lookup_seq_lt by exact Hi. reflexivity.
Qed.

Lemma zip_with_elementwise (f : float → float → float) (x y : list float) :
  length x = length y →
  zip_with f x y = elementwise (λ i, f (item x i) (item y i)) (length x).
Proof.
  intros Hlen. apply list_eq. intros i. unfold elementwise.
  rewrite lookup_zip_with, list_lookup_fmap.
  destruct (decide (i < length x)) as [Hi|Hi].
  - rewrite lookup_seq_lt by exact Hi. simpl.
    destruct (lookup_lt_is_Some_2 x i Hi) as [a Ha].
    destruct (lookup_lt_is_Some_2 y i ltac:(lia)) as [b Hb].
    rewrite Ha, Hb. simpl. unfold item.
    rewrite (nth_lookup_Some _ _ _ _ Ha), (nth_lookup_Some _ _ _ _ Hb).
    reflexivity.
  - rewrite lookup_seq_ge by lia.
    rewrite (lookup_ge_None_2 x i) by lia. reflexivity.
Qed.

Lemma map_elementwise (g : float → float) (f : nat → float) (n : nat) :
  map g (elementwise f n) = elementwise (λ i, g (f i)) n.
Proof. unfold elementwise. apply map_map. Qed.

Lemma broadcast_equal_lengths (f : float → float → float) (x y : list float) :
  length x = length y →
  py.broadcast f x y
  = Ok (elementwise (λ i, f (item x i) (item y i)) (length x)).
Proof.
  intros Hlen. unfold py.broadcast.
  rewrite Hlen, Nat.eqb_refl, <- Hlen, zip_with_elementwise by exact Hlen.
  reflexivity.
Qed.

Lemma absolute_error_equal_lengths (x x_true : list float) :
  length x = length x_true →
  statistics.absolute_error x x_true
  = Ok (elementwise (λ i, item x i - item x_true i)%float (length x)).
Proof. apply broadcast_equal_lengths. Qed.

Lemma elementwise_ext (f g : nat → float) (n : nat) :
  (∀ i, i < n → f i = g i) → elementwise f n = elementwise g n.
Proof.
  intros Hfg. unfold elementwise. apply map_ext_in. intros i Hi.
  apply in_seq in Hi. apply Hfg. lia.
Qed.

Lemma relative_error_equal_lengths (x x_true : list float) :
  length x = length x_true →
  statistics.relative_error x x_true
  = Ok (elementwise (λ i, (item x i - item x_true i) / item x_true i)%float
          (length x)).
Proof.
  intros Hlen. unfold statistics.relative_error.
  rewrite absolute_error_equal_lengths by exact Hlen. simpl.
  rewrite broadcast_equal_lengths
    by (rewrite elementwise_length; exact Hlen).
  rewrite elementwise_length. f_equal.
  apply elementwise_ext. intros i Hi.
  rewrite elementwise_item by exact Hi. reflexivity.
Qed.

(** C4. For arrays of equal length, [absolute_error] returns an array
    of that length whose entry at every index [i] is the signed
    difference [x[i] - x_true[i]], and [mean_squared_error] returns the
    mean of the squares [(x[i] - x_true[i])^2] over all indices. *)
Theorem absolute_and_mean_squared_error `{NumPy} (x x_true : list float) :
  length x = length x_true →
  (∃ error,
     statistics.absolute_error x x_true = Ok error ∧
     length error = length x ∧
     ∀ i, i < length x → item error i = (item x i - item x_true i)%float) ∧
  statistics.mean_squared_error x x_true
  = Ok (spec_mean_squared_error x x_true).
Proof.
  intros Hlen. split.
  - eexists. split; [apply absolute_error_equal_lengths, Hlen|].
    split; [apply elementwise_length|].
    intros i Hi. apply elementwise_item, Hi.
  - unfold statistics.mean_squared_error, spec_mean_squared_error.
    rewrite absolute_error_equal_lengths by exact Hlen. simpl.
    rewrite map_elementwise. reflexivity.
Qed.

Lemma absolute_and_mean_squared_error_witness :
  (∃ error,
     statistics.absolute_error model_data observed_data = Ok error ∧
     length error = length model_data ∧
     ∀ i, i < length model_data →
          item error i = (item model_data i - item observed_data i)%float) ∧
  @statistics.mean_squared_error seq_numpy model_data observed_data
  = Ok (@spec_mean_squared_error seq_numpy model_data observed_data).
Proof.
  exact (@absolute_and_mean_squared_error seq_numpy
           model_data observed_data eq_refl).
Defined.

(** C6. For arrays of equal length, [relative_error] returns at every
    index [i] the quotient [(x[i] - x_true[i]) / x_true[i]] and
    [percent_error] returns that entry times [100]. Equality is identity
    of binary64 values, so the statement needs no condition on the
    entries of [x_true]: where one is zero both sides hold the same
    infinity or NaN. *)
Theorem percent_error_is_relative_error_times_100 (x x_true : list float) :
  length x = length x_true →
  ∃ rel pct,
    statistics.relative_error x x_true = Ok rel ∧
    statistics.percent_error x x_true = Ok pct ∧
    length rel = length x ∧ length pct = length x ∧
    ∀ i, i < length x →
      item rel i = ((item x i - item x_true i) / item x_true i)%float ∧
      item pct i = (item rel i * 100)%float.
Proof.
  intros Hlen.
  pose proof (relative_error_equal_lengths x x_true Hlen) as Hrel.
  eexists. eexists. split; [exact Hrel|].
  split.
  { unfold statistics.percent_error. rewrite Hrel. simpl.
    rewrite map_elementwise. reflexivity. }
  rewrite !elementwise_length. repeat split.
  - apply elementwise_item. assumption.
  - rewrite !elementwise_item by assumption. reflexivity.
Qed.

Lemma percent_error_is_relative_error_times_100_witness :
  ∃ rel pct,
    statistics.relative_error model_data observed_data = Ok rel ∧
    statistics.percent_error model_data observed_data = Ok pct ∧
    length rel = length model_data ∧ length pct = length model_data ∧
    ∀ i, i < length model_data →
      item rel i
      = ((item model_data i - item observed_data i)
         / item observed_data i)%float ∧
      item pct i = (item rel i * 100)%float.
Proof.
  exact (percent_error_is_relative_error_times_100
           model_data observed_data eq_refl).
Defined.

(** ** binary64 facts behind the perfect fit *)

Section binary64.

Lemma Prim2SF_zero : Prim2SF 0%float = S754_zero false.
Proof. reflexivity. Qed.

Lemma finite_cases (x : float) :
  is_finite x = true →
  (∃ s, Prim2SF x = S754_zero s) ∨
  (∃ s m e, Prim2SF x = S754_finite s m e).
Proof.
  unfold is_finite, is_nan, is_infinity.
  rewrite !FloatAxioms.eqb_spec, abs_spec.
  change (Prim2SF infinity) with (S754_infinity false).
  destruct (Prim2SF x) as [s|s| |s m e]; simpl; eauto.
  - destruct s; discriminate.
  - discriminate.
Qed.

(** A finite value minus itself is [+0]. *)
Lemma sub_self (x : float) :
  is_finite x = true → (x - x)%float = 0%float.
Proof.
  intros Hx. apply Prim2SF_inj. rewrite sub_spec, Prim2SF_zero.
  destruct (finite_cases x Hx) as [[s ->]|(s & m & e & ->)].
  - destruct s; reflexivity.
  - unfold SF64sub, SFsub. cbv zeta.
    rewrite Z.min_id, Z.sub_diag. reflexivity.
Qed.

(** Zero divided by anything but a zero or a NaN is a zero. *)
Lemma zero_div (d : float) :
  is_zero d = false → is_nan d = false →
  (0 / d)%float = 0%float ∨ (0 / d)%float = (-0)%float.
Proof.
  unfold is_zero, is_nan. rewrite !FloatAxioms.eqb_spec.
  change (Prim2SF zero) with (S754_zero false).
  intros Hz Hn.
  assert (Prim2SF (0 / d) = S754_zero false ∨
          Prim2SF (0 / d) = S754_zero true) as [Hq|Hq].
  { rewrite div_spec, Prim2SF_zero.
    destruct (Prim2SF d) as [s|s| |s m e]; simpl in *; try discriminate.
    - destruct s; auto.
    - destruct s; auto. }
  - left. apply Prim2SF_inj. rewrite Hq. reflexivity.
  - right. apply Prim2SF_inj. rewrite Hq. reflexivity.
Qed.

Lemma squared_self_differences (a : list float) :
  Forall (λ o, is_finite o = true) a →
  Forall (λ v, v = 0%float) (map py.square (zip_with PrimFloat.sub a a)).
Proof.
  induction 1 as [|o a Ho _ IH]; simpl; constructor; [|exact IH].
  rewrite (sub_self o Ho). reflexivity.
Qed.

Lemma fold_add_zeros (a : list float) :
  Forall (λ v, v = 0%float) a →
  fold_left (λ acc x, py.add acc (py.Float x)) a (py.Float 0) = py.Float 0.
Proof. induction 1 as [|v a -> _ IH]; simpl; [reflexivity|exact IH]. Qed.

Lemma sum_zeros (a : list float) :
  a ≠ [] → Forall (λ v, v = 0%float) a → py.sum a = py.Float 0.
Proof.
  intros Hne Hall. destruct Hall as [|v a -> Ha]; [contradiction|].
  unfold py.sum. simpl. apply fold_add_zeros, Ha.
Qed.

Lemma fold_add_float (a : list float) (d : float) :
  ∃ d', fold_left (λ acc x, py.add acc (py.Float x)) a (py.Float d)
        = py.Float d'.
Proof.
  revert d. induction a as [|v a IH]; intros d; simpl; [eauto|apply IH].
Qed.

Lemma sum_float (a : list float) : a ≠ [] → ∃ d, py.sum a = py.Float d.
Proof.
  intros Hne. destruct a as [|v a]; [contradiction|].
  unfold py.sum. simpl. apply fold_add_float.
Qed.

End binary64.

(** C5, as stated, fails on a non-constant sequence of finite values
    whose squared deviations underflow to zero (the quotient is then
    [0 / 0]), and on a sequence with an infinite entry. *)
Lemma nash_sutcliffe_not_one :
  (0 =? 0x1p-600)%float = false ∧
  @statistics.nash_sutcliffe seq_numpy [0; 0x1p-600]%float [0; 0x1p-600]%float
  = Ok (py.Float nan) ∧
  @statistics.nash_sutcliffe seq_numpy [1; infinity]%float [1; infinity]%float
  = Ok (py.Float nan).
Proof. repeat split; vm_compute; reflexivity. Qed.

(** C5 (amended). For every sequence [observed] of finite values whose
    variance denominator, as computed, is neither zero nor NaN,
    [nash_sutcliffe(observed, observed)] is exactly [1]: every error
    term is [+0], so the quotient is a zero. *)
Theorem nash_sutcliffe_perfect_fit `{NumPy} (observed : list float) :
  Forall (λ o, is_finite o = true) observed →
  is_zero (py.to_float (variance_sum observed)) = false →
  is_nan (py.to_float (variance_sum observed)) = false →
  statistics.nash_sutcliffe observed observed = Ok (py.Float 1).
Proof.
  intros Hfin Hzero Hnan.
  destruct observed as [|o rest]; [discriminate Hzero|].
  assert (∃ d, variance_sum (o :: rest) = py.Float d) as [d Hvar].
  { apply sum_float. discriminate. }
  rewrite Hvar in Hzero, Hnan. simpl in Hzero, Hnan.
  unfold statistics.nash_sutcliffe. fold (variance_sum (o :: rest)).
  unfold py.broadcast. rewrite Nat.eqb_refl, Hvar.
  assert (map py.square (zip_with PrimFloat.sub (o :: rest) (o :: rest)) ≠ [])
    as Hne by (simpl; discriminate).
  rewrite bind_Ok, (sum_zeros _ Hne (squared_self_differences _ Hfin)).
  simpl. destruct (zero_div d Hzero Hnan) as [-> | ->]; reflexivity.
Qed.

Lemma nash_sutcliffe_perfect_fit_witness :
  @statistics.nash_sutcliffe seq_numpy observed_data observed_data
  = Ok (py.Float 1).
Proof.
  apply (@nash_sutcliffe_perfect_fit seq_numpy observed_data).
  - repeat constructor.
  - reflexivity.
  - reflexivity.
Defined.

(** * hydrocomp.py: compare *)

Section compare_facts.
Context `{NumPy}.
Implicit Types (modeled observed : list float) (dates : list Z).

(** The length test comes first: nothing else of the input is looked
    at when the two value arrays differ in length. *)
Lemma compare_mismatch (parameter_name model_name observed_name : string)
    modeled observed dates :
  length modeled ≠ length observed →
  hydrocomp.compare parameter_name model_name observed_name
    modeled observed dates
  = Raise hydrocomp.length_error.
Proof.
  intros Hne. unfold hydrocomp.compare.
  apply Nat.eqb_neq in Hne. rewrite Hne. reflexivity.
Qed.

Lemma stored_statistics_populated
    (v1 v2 v3 v4 v5 v6 : hydrocomp.value)
    (st : gmap string (option hydrocomp.value)) :
  st = <["nash_sutcliffe_coeff" := Some v6]>
         (<["r_squared_coeff" := Some v5]>
           (<["mean_squared_error" := Some v4]>
             (<["percent_difference" := Some v3]>
               (<["percent_error" := Some v2]>
                 (<["relative_error" := Some v1]>
                   hydrocomp.empty_stats))))) →
  (∀ name, name ∈ statistic_names → ∃ v, st !! name = Some (Some v)) ∧
  (∀ name, is_Some (st !! name) → name ∈ statistic_names).
Proof.
  intros ->. unfold statistic_names, hydrocomp.empty_stats. split.
  - intros name Hin. repeat (apply elem_of_cons in Hin as [->|Hin]).
    all: try (eexists; reflexivity).
    apply elem_of_nil in Hin. contradiction.
  - intros name [v Hv].
    repeat (rewrite lookup_insert in Hv;
            destruct (decide (_ = name)) as [<-|?];
            [repeat first [apply list_elem_of_here
                          | apply list_elem_of_further]|]).
    rewrite lookup_empty in Hv. discriminate.
Qed.

(** Of [dates] only the first two entries are read: a result returned
    for one array of dates is returned, with the same statistics, for any
    other array that starts with the same two dates. *)
Lemma compare_reads_two_dates
    (parameter_name model_name observed_name : string)
    modeled observed (d0 d1 : Z) (rest rest' : list Z)
    (c : hydrocomp.comp_data) :
  hydrocomp.compare parameter_name model_name observed_name
    modeled observed (d0 :: d1 :: rest) = Ok c →
  ∃ c', hydrocomp.compare parameter_name model_name observed_name
          modeled observed (d0 :: d1 :: rest') = Ok c' ∧
        hydrocomp.stats c' = hydrocomp.stats c ∧
        hydrocomp.timestep c' = hydrocomp.timestep c.
Proof.
  unfold hydrocomp.compare.
  destruct (negb (length modeled =? length observed)); [discriminate|].
  change (py.getitem (d0 :: d1 :: rest) 1) with (Ok d1).
  change (py.getitem (d0 :: d1 :: rest) 0) with (Ok d0).
  change (py.getitem (d0 :: d1 :: rest') 1) with (Ok d1).
  change (py.getitem (d0 :: d1 :: rest') 0) with (Ok d0).
  rewrite !bind_Ok.
  repeat match goal with
         | |- mbind _ ?m = Ok _ → _ =>
             destruct m; [rewrite !bind_Ok|discriminate]
         end.
  intros [= <-]. eexists. split; [reflexivity|]. split; reflexivity.
Qed.

End compare_facts.

(** C1, as stated, fails on the dates: a [dates] array longer than the
    two value arrays is accepted, and the comparison is returned. *)
Lemma compare_accepts_longer_dates :
  length [0; 1; 2]%Z ≠ length [1.5; 2]%float ∧
  ∃ c, @hydrocomp.compare seq_numpy "discharge" "model" "gauge"
         [1; 2.5]%float [1.5; 2]%float [0; 1; 2]%Z = Ok c ∧
       hydrocomp.dates c = [0; 1; 2]%Z.
Proof.
  split; [simpl; lia|].
  eexists. split; [vm_compute; reflexivity|reflexivity].
Qed.

(** C1 (amended). If [len(modeled_parameter) != len(observed_parameter)],
    [compare] raises its length error before any statistic is computed,
    whatever [dates] and the numpy reductions are. The length of [dates]
    takes no part in the test: a result returned for one array of dates
    is returned, with the same statistics, for every array that starts
    with the same two dates, whatever its length. *)
Theorem compare_length_mismatch `{NumPy}
    (parameter_name model_name observed_name : string)
    (modeled observed : list float) :
  (∀ dates, length modeled ≠ length observed →
     hydrocomp.compare parameter_name model_name observed_name
       modeled observed dates
     = Raise hydrocomp.length_error) ∧
  (∀ d0 d1 rest rest' c,
     hydrocomp.compare parameter_name model_name observed_name
       modeled observed (d0 :: d1 :: rest) = Ok c →
     ∃ c', hydrocomp.compare parameter_name model_name observed_name
             modeled observed (d0 :: d1 :: rest') = Ok c' ∧
           hydrocomp.stats c' = hydrocomp.stats c).
Proof.
  split.
  - intros dates. apply compare_mismatch.
  - intros d0 d1 rest rest' c Hok.
    destruct (compare_reads_two_dates _ _ _ _ _ _ _ _ rest' _ Hok)
      as (c' & Hok' & Hstats & _).
    exists c'. split; assumption.
Qed.

Lemma compare_length_mismatch_witness :
  @hydrocomp.compare seq_numpy "discharge" "model" "gauge"
    model_data [55.7; 62.0; 65.5; 64.7]%float []
  = Raise hydrocomp.length_error.
Proof.
  apply (proj1 (@compare_length_mismatch seq_numpy "discharge" "model" "gauge"
                  model_data [55.7; 62.0; 65.5; 64.7]%float)).
  simpl. lia.
Defined.

(** C7. [compare] either raises, and then returns no comparison result
    at all, or returns a result whose [stats] dictionary holds a value
    under each of the six statistic names: with value arrays of
    different lengths (five against four, say) it raises the length
    error, and any result it returns is fully populated. *)
Theorem compare_all_or_nothing `{NumPy}
    (parameter_name model_name observed_name : string)
    (modeled observed : list float) (dates : list Z) :
  (length modeled ≠ length observed →
   hydrocomp.compare parameter_name model_name observed_name
     modeled observed dates
   = Raise hydrocomp.length_error) ∧
  (∀ c, hydrocomp.compare parameter_name model_name observed_name
          modeled observed dates = Ok c →
        length modeled = length observed ∧ fully_populated c).
Proof.
  split; [apply compare_mismatch|].
  intros c Hok.
  destruct (decide (length modeled = length observed)) as [Hlen|Hne];
    [|rewrite (compare_mismatch _ _ _ _ _ _ Hne) in Hok; discriminate].
  split; [exact Hlen|].
  unfold hydrocomp.compare in Hok.
  rewrite Hlen, Nat.eqb_refl in Hok. simpl negb in Hok. cbv iota in Hok.
  repeat match type of Hok with
         | mbind _ ?m = Ok _ =>
             destruct m; [rewrite bind_Ok in Hok|discriminate Hok]
         end.
  injection Hok as <-.
  eexists. split; [reflexivity|].
  eapply stored_statistics_populated. reflexivity.
Qed.

Lemma compare_all_or_nothing_witness :
  @hydrocomp.compare seq_numpy "discharge" "model" "gauge"
    model_data [55.7; 62.0; 65.5; 64.7]%float [1; 2; 3; 4; 5]%Z
  = Raise hydrocomp.length_error ∧
  ∃ c, @hydrocomp.compare seq_numpy "discharge" "model" "gauge"
         model_data observed_data [1; 2; 3; 4; 5]%Z = Ok c ∧
       length model_data = length observed_data ∧ fully_populated c.
Proof.
  split.
  - apply (proj1 (@compare_all_or_nothing seq_numpy "discharge" "model" "gauge"
                    model_data [55.7; 62.0; 65.5; 64.7]%float
                    [1; 2; 3; 4; 5]%Z)).
    simpl. lia.
  - eexists. split; [vm_compute; reflexivity|].
    apply (proj2 (@compare_all_or_nothing seq_numpy "discharge" "model" "gauge"
                    model_data observed_data [1; 2; 3; 4; 5]%Z)).
    vm_compute. reflexivity.
Defined.

(** * Further properties of helpers.py *)

Example window_of_a_series :
  window_dates 3 6 [1; 3; 4; 6; 9]%Z = [3; 4; 6]%Z ∧
  window_data 3 6 [1; 3; 4; 6; 9]%Z [10; 30; 40; 60; 90]%float
  = [30; 40; 60]%float.
Proof. split; reflexivity. Qed.

Lemma int_of_where_raise (dates : list Z) (d : Z) (e : exception) :
  py.int_of_array (py.np_where_eq dates d) = Raise e →
  e = TypeError ∧ ¬ occurs_once d dates.
Proof.
  unfold py.int_of_array, py.np_where_eq, occurs_once.
  rewrite <- (where_from_length 0).
  destruct (py.where_from 0 dates d) as [|m [|m' rest]];
    try discriminate; intros [= <-]; split; try reflexivity;
    simpl; lia.
Qed.

Lemma occurs_once_lookup (dates : list Z) (d : Z) :
  occurs_once d dates → ∃ i, dates !! i = Some d.
Proof.
  unfold occurs_once. intros Hc. apply list_elem_of_lookup.
  apply list_elem_of_In, (count_occ_In Z.eq_dec). lia.
Qed.

Lemma nonempty_first_last {B} (l : list B) :
  l ≠ [] → ∃ d0 dl, head l = Some d0 ∧ last l = Some dl.
Proof.
  intros Hne. destruct l as [|x l]; [contradiction|].
  exists x. destruct (last (x :: l)) as [dl|] eqn:Hl; [eauto|].
  apply last_None in Hl. discriminate.
Qed.

(** X1. Each outcome of [subset_data] has one cause: the length error
    when the lengths differ; [IndexError] when they agree and the series
    is empty; [TypeError] when a boundary date, after clamping, is not
    the date of exactly one entry; and a result otherwise. *)
Theorem subset_data_outcome {A} (dates : list Z) (data : list A)
    (start_date end_date : Z) :
  match helpers.subset_data dates data start_date end_date with
  | Raise (ValueError message) =>
      message = "Lengths of dates and data are not equal!" ∧
      length dates ≠ length data
  | Raise IndexError => length dates = length data ∧ dates = []
  | Raise TypeError =>
      length dates = length data ∧
      ∃ d0 dl, head dates = Some d0 ∧ last dates = Some dl ∧
        ¬ (occurs_once (clamp_start d0 dl start_date) dates ∧
           occurs_once (clamp_end d0 dl end_date) dates)
  | Raise ZeroDivisionError => False
  | Ok r =>
      length dates = length data ∧
      ∃ d0 dl, head dates = Some d0 ∧ last dates = Some dl ∧
        occurs_once (clamp_start d0 dl start_date) dates ∧
        occurs_once (clamp_end d0 dl end_date) dates
  end.
Proof.
  destruct (decide (length dates = length data)) as [Hlen|Hne];
    [|rewrite (subset_data_mismatch _ _ _ _ Hne); split;
      [reflexivity|exact Hne]].
  destruct (decide (dates = [])) as [->|Hnil];
    [rewrite (subset_data_empty _ _ _ Hlen); split; [exact Hlen|reflexivity]|].
  destruct (nonempty_first_last dates Hnil) as (d0 & dl & Hfirst & Hlast).
  rewrite (subset_data_body _ _ d0 dl _ _ Hlen Hfirst Hlast).
  destruct (py.int_of_array
              (py.np_where_eq dates (clamp_start d0 dl start_date)))
    as [i|err] eqn:Hi.
  - apply int_of_where_inv in Hi as [_ Hci]. rewrite bind_Ok.
    destruct (py.int_of_array
                (py.np_where_eq dates (clamp_end d0 dl end_date)))
      as [j|err] eqn:Hj.
    + apply int_of_where_inv in Hj as [_ Hcj]. rewrite bind_Ok.
      split; [exact Hlen|]. exists d0, dl. auto.
    + apply int_of_where_raise in Hj as [-> Hncj]. rewrite bind_Raise.
      split; [exact Hlen|]. exists d0, dl. repeat split; try assumption.
      intros [_ Hcj]. contradiction.
  - apply int_of_where_raise in Hi as [-> Hnci]. rewrite bind_Raise.
    split; [exact Hlen|]. exists d0, dl. repeat split; try assumption.
    intros [Hci _]. contradiction.
Qed.

(** X2. A successful [subset_data] returns one contiguous run of the
    series, the same run of both arrays: there is a position [i] such
    that entry [k] of the returned dates is [dates[i + k]] and entry [k]
    of the returned data is [data[i + k]]. *)
Theorem subset_data_keeps_pairs {A} (dates : list Z) (data : list A)
    (start_date end_date : Z) (r : helpers.subset A) :
  helpers.subset_data dates data start_date end_date = Ok r →
  ∃ i, ∀ k, k < length (helpers.dates r) →
    helpers.dates r !! k = dates !! (i + k) ∧
    helpers.data r !! k = data !! (i + k) ∧
    is_Some (dates !! (i + k)) ∧ is_Some (data !! (i + k)).
Proof.
  intros Hok.
  apply subset_data_inv in Hok
    as (d0 & dl & i & j & Hlen & _ & _ & _ & _ & Hj & _ & ->).
  apply lookup_lt_Some in Hj. simpl.
  exists i. intros k Hk. rewrite slice_length in Hk by lia.
  rewrite !slice_lookup by lia.
  repeat split; try reflexivity; apply lookup_lt_is_Some; lia.
Qed.

Lemma subset_data_keeps_pairs_witness :
  ∃ i, ∀ k, k < length [2; 3; 4]%Z →
    [2; 3; 4]%Z !! k = [1; 2; 3; 4; 5]%Z !! (i + k) ∧
    [20; 30; 40]%float !! k = [10; 20; 30; 40; 50]%float !! (i + k) ∧
    is_Some ([1; 2; 3; 4; 5]%Z !! (i + k)) ∧
    is_Some ([10; 20; 30; 40; 50]%float !! (i + k)).
Proof.
  exact (subset_data_keeps_pairs
           [1; 2; 3; 4; 5]%Z [10; 20; 30; 40; 50]%float 2 4
           (helpers.Subset [2; 3; 4]%Z [20; 30; 40]%float) eq_refl).
Defined.

(** X3. A non-empty subset returned by [subset_data] starts at the
    start date and ends at the end date, each taken after clamping (so
    at [start_date] and [end_date] themselves when they lie in the range
    of the series). *)
Theorem subset_data_boundaries {A} (dates : list Z) (data : list A)
    (d0 dl start_date end_date : Z) (r : helpers.subset A) :
  head dates = Some d0 → last dates = Some dl →
  helpers.subset_data dates data start_date end_date = Ok r →
  helpers.dates r ≠ [] →
  head (helpers.dates r) = Some (clamp_start d0 dl start_date) ∧
  last (helpers.dates r) = Some (clamp_end d0 dl end_date).
Proof.
  intros Hfirst Hlast Hok Hne.
  apply subset_data_inv in Hok
    as (d0' & dl' & i & j & Hlen & Hfirst' & Hlast' & Hi & _ & Hj & _ & ->).
  assert (d0' = d0) as -> by congruence.
  assert (dl' = dl) as -> by congruence.
  simpl in *.
  pose proof (lookup_lt_Some _ _ _ Hj) as Hjlt.
  assert (length (py.slice dates i (j + 1)) = j + 1 - i) as Hl
    by (apply slice_length; lia).
  assert (i ≤ j) as Hij.
  { destruct (py.slice dates i (j + 1)); [contradiction|]. simpl in Hl. lia. }
  split.
  - rewrite head_lookup, slice_lookup by lia.
    rewrite Nat.add_0_r. exact Hi.
  - rewrite last_lookup, Hl.
    replace (pred (j + 1 - i)) with (j - i) by lia.
    rewrite slice_lookup by lia.
    replace (i + (j - i)) with j by lia. exact Hj.
Qed.

Lemma subset_data_boundaries_witness :
  head [2; 3; 4]%Z = Some (clamp_start 1 5 2) ∧
  last [2; 3; 4]%Z = Some (clamp_end 1 5 4).
Proof.
  apply (subset_data_boundaries
           [1; 2; 3; 4; 5]%Z [10; 20; 30; 40; 50]%float 1 5 2 4
           (helpers.Subset [2; 3; 4]%Z [20; 30; 40]%float)
           eq_refl eq_refl eq_refl).
  simpl. discriminate.
Defined.

(** ** A slice of a sorted series is a window *)

Section sorted_slices.
Context {B : Type} (key : B → Z).
Implicit Types l : list B.

Lemma filter_all (P : B → Prop) `{∀ x, Decision (P x)} l :
  Forall P l → filter P l = l.
Proof.
  induction 1 as [|x l Hx _ IH]; [reflexivity|].
  rewrite filter_cons_True by exact Hx. f_equal. exact IH.
Qed.

Lemma filter_none (P : B → Prop) `{∀ x, Decision (P x)} l :
  Forall (λ x, ¬ P x) l → filter P l = [].
Proof.
  induction 1 as [|x l Hx _ IH]; [reflexivity|].
  rewrite filter_cons_False by exact Hx. exact IH.
Qed.

(** In a list with strictly increasing keys, the entries from position
    [i] to position [j] are the entries whose key lies between the keys
    at [i] and at [j]. *)
Lemma slice_is_window l (i j : nat) (a b : B) :
  increasing_keys key l → l !! i = Some a → l !! j = Some b →
  py.slice l i (j + 1) = filter (λ x, in_window (key a) (key b) (key x)) l.
Proof.
  intros Hinc Hi Hj. unfold py.slice.
  pose proof (lookup_lt_Some _ _ _ Hi) as Hilt.
  pose proof (lookup_lt_Some _ _ _ Hj) as Hjlt.
  rewrite <- (take_drop (j + 1) l) at 2.
  rewrite <- (take_drop i (take (j + 1) l)) at 2.
  rewrite !filter_app.
  rewrite (filter_none _ (take i (take (j + 1) l))).
  2:{ apply Forall_lookup. intros k x Hk.
      apply lookup_take_Some in Hk as [Hk Hki].
      apply lookup_take_Some in Hk as [Hk _].
      pose proof (Hinc k i x a Hki Hk Hi). unfold in_window. lia. }
  rewrite (filter_none _ (drop (j + 1) l)).
  2:{ apply Forall_lookup. intros k x Hk. rewrite lookup_drop in Hk.
      pose proof (Hinc j (j + 1 + k) b x ltac:(lia) Hj Hk).
      unfold in_window. lia. }
  rewrite (filter_all _ (drop i (take (j + 1) l))).
  2:{ apply Forall_lookup. intros k x Hk. rewrite lookup_drop in Hk.
      apply lookup_take_Some in Hk as [Hk Hkj].
      assert (key a ≤ key x)%Z.
      { destruct (decide (k = 0)) as [->|Hk0].
        - rewrite Nat.add_0_r in Hk. assert (x = a) as -> by congruence. lia.
        - pose proof (Hinc i (i + k) a x ltac:(lia) Hi Hk). lia. }
      assert (key x ≤ key b)%Z.
      { destruct (decide (i + k = j)) as [Hkj'|Hkj'].
        - rewrite Hkj' in Hk. assert (x = b) as -> by congruence. lia.
        - pose proof (Hinc (i + k) j x b ltac:(lia) Hk Hj). lia. }
      unfold in_window. lia. }
  rewrite app_nil_r. reflexivity.
Qed.

End sorted_slices.

Lemma strictly_ascending_keys (dates : list Z) :
  strictly_ascending dates → increasing_keys id dates.
Proof. intros Hasc i j a b. apply Hasc. Qed.

Lemma zip_increasing_keys {A} (dates : list Z) (data : list A) :
  strictly_ascending dates → increasing_keys fst (zip dates data).
Proof.
  intros Hasc i j [a x] [b y] Hij Hi Hj.
  apply lookup_zip_with_Some in Hi as (? & ? & [= <- <-] & Hi & _).
  apply lookup_zip_with_Some in Hj as (? & ? & [= <- <-] & Hj & _).
  simpl. exact (Hasc i j a b Hij Hi Hj).
Qed.

Lemma slice_data_is_window {A} (dates : list Z) (data : list A)
    (i j : nat) (s e : Z) :
  strictly_ascending dates → length dates = length data →
  dates !! i = Some s → dates !! j = Some e →
  py.slice data i (j + 1) = window_data s e dates data.
Proof.
  intros Hasc Hlen Hi Hj.
  destruct (lookup_lt_is_Some_2 data i) as [x Hx];
    [apply lookup_lt_Some in Hi; lia|].
  destruct (lookup_lt_is_Some_2 data j) as [y Hy];
    [apply lookup_lt_Some in Hj; lia|].
  assert (zip dates data !! i = Some (s, x)) as Hzi
    by (apply lookup_zip_with_Some; eauto 10).
  assert (zip dates data !! j = Some (e, y)) as Hzj
    by (apply lookup_zip_with_Some; eauto 10).
  pose proof (slice_is_window fst (zip dates data) i j (s, x) (e, y)
                (zip_increasing_keys dates data Hasc) Hzi Hzj) as Hw.
  simpl in Hw. unfold window_data. rewrite <- Hw.
  unfold py.slice. rewrite fmap_drop, fmap_take, snd_zip by lia.
  reflexivity.
Qed.

Lemma subset_data_window_eq {A} (dates : list Z) (data : list A)
    (d0 dl start_date end_date : Z) :
  strictly_ascending dates → length dates = length data →
  head dates = Some d0 → last dates = Some dl →
  clamp_start d0 dl start_date ∈ dates →
  clamp_end d0 dl end_date ∈ dates →
  helpers.subset_data dates data start_date end_date
  = Ok (helpers.Subset
          (window_dates (clamp_start d0 dl start_date)
             (clamp_end d0 dl end_date) dates)
          (window_data (clamp_start d0 dl start_date)
             (clamp_end d0 dl end_date) dates data)).
Proof.
  intros Hasc Hlen Hfirst Hlast Hs He.
  apply list_elem_of_lookup in Hs as [i Hi].
  apply list_elem_of_lookup in He as [j Hj].
  rewrite (subset_data_body _ _ d0 dl _ _ Hlen Hfirst Hlast).
  rewrite (int_of_where_once i dates _ Hi
             (strictly_ascending_occurs_once _ _ _ Hasc Hi)), bind_Ok.
  rewrite (int_of_where_once j dates _ Hj
             (strictly_ascending_occurs_once _ _ _ Hasc Hj)), bind_Ok.
  rewrite (slice_is_window id dates i j _ _
             (strictly_ascending_keys _ Hasc) Hi Hj).
  rewrite (slice_data_is_window dates data i j _ _ Hasc Hlen Hi Hj).
  reflexivity.
Qed.

(** X4. On a series with strictly ascending dates, [subset_data]
    succeeds as soon as the two boundary dates, after clamping, are dates
    of the series, and it returns exactly the entries whose date lies in
    the window between them: no entry of the window is dropped and none
    outside it is kept. *)
Theorem subset_data_is_window {A} (dates : list Z) (data : list A)
    (d0 dl start_date end_date : Z) :
  strictly_ascending dates → length dates = length data →
  head dates = Some d0 → last dates = Some dl →
  clamp_start d0 dl start_date ∈ dates →
  clamp_end d0 dl end_date ∈ dates →
  helpers.subset_data dates data start_date end_date
  = Ok (helpers.Subset
          (window_dates (clamp_start d0 dl start_date)
             (clamp_end d0 dl end_date) dates)
          (window_data (clamp_start d0 dl start_date)
             (clamp_end d0 dl end_date) dates data)).
Proof. apply subset_data_window_eq. Qed.

Lemma strictly_ascending_nil : strictly_ascending [].
Proof. intros i j a b _ Hi. discriminate. Qed.

Lemma strictly_ascending_cons (d : Z) (dates : list Z) :
  Forall (λ x, (d < x)%Z) dates → strictly_ascending dates →
  strictly_ascending (d :: dates).
Proof.
  intros Hall Hasc i j a b Hij Hi Hj.
  destruct j as [|j]; [lia|]. simpl in Hj.
  destruct i as [|i]; simpl in Hi.
  - injection Hi as <-.
    exact (proj1 (Forall_lookup _ _) Hall j b Hj).
  - apply (Hasc i j a b); [lia|assumption..].
Qed.

(** Strict ascent of a list of literal dates. *)
Ltac ascending_literals :=
  repeat (apply strictly_ascending_cons; [repeat constructor; lia|]);
  apply strictly_ascending_nil.

Lemma subset_data_is_window_witness :
  helpers.subset_data [1; 3; 4; 6; 9]%Z [10; 30; 40; 60; 90]%float 3 12
  = Ok (helpers.Subset
          (window_dates (clamp_start 1 9 3) (clamp_end 1 9 12)
             [1; 3; 4; 6; 9]%Z)
          (window_data (clamp_start 1 9 3) (clamp_end 1 9 12)
             [1; 3; 4; 6; 9]%Z [10; 30; 40; 60; 90]%float)).
Proof.
  apply (subset_data_is_window
           [1; 3; 4; 6; 9]%Z [10; 30; 40; 60; 90]%float 1 9 3 12).
  - ascending_literals.
  - reflexivity.
  - reflexivity.
  - reflexivity.
  - apply list_elem_of_lookup. exists 1. reflexivity.
  - apply list_elem_of_lookup. exists 4. reflexivity.
Defined.

Lemma int_of_where_not_once (dates : list Z) (d : Z) :
  ¬ occurs_once d dates →
  py.int_of_array (py.np_where_eq dates d) = Raise TypeError.
Proof.
  intros Hn.
  destruct (py.int_of_array (py.np_where_eq dates d)) as [i|e] eqn:Hw.
  - apply int_of_where_inv in Hw as [_ Hc]. contradiction.
  - apply int_of_where_raise in Hw as [-> _]. reflexivity.
Qed.

Lemma not_in_not_once (dates : list Z) (d : Z) :
  d ∉ dates → ¬ occurs_once d dates.
Proof.
  intros Hnin Hc. apply occurs_once_lookup in Hc as [i Hi].
  apply Hnin. eapply list_elem_of_lookup_2, Hi.
Qed.

Lemma subset_data_lookup_failure {A} (dates : list Z) (data : list A)
    (d0 dl s e : Z) :
  length dates = length data →
  head dates = Some d0 → last dates = Some dl →
  ¬ occurs_once (clamp_start d0 dl s) dates ∨
  ¬ occurs_once (clamp_end d0 dl e) dates →
  helpers.subset_data dates data s e = Raise TypeError.
Proof.
  intros Hlen Hfirst Hlast Hn.
  rewrite (subset_data_body _ _ d0 dl _ _ Hlen Hfirst Hlast).
  destruct (py.int_of_array (py.np_where_eq dates (clamp_start d0 dl s)))
    as [i|err] eqn:Hi.
  - rewrite bind_Ok. destruct Hn as [Hn|Hn].
    + apply int_of_where_inv in Hi as [_ Hc]. contradiction.
    + rewrite (int_of_where_not_once _ _ Hn). reflexivity.
  - apply int_of_where_raise in Hi as [-> _]. reflexivity.
Qed.

(** X5. There is no nearest-date fallback: on a non-empty series of
    equal lengths, a [start_date] or an [end_date] that lies within
    [[dates[0], dates[-1]]] but is not one of the dates makes
    [subset_data] raise [TypeError]. *)
Theorem subset_data_unknown_date {A} (dates : list Z) (data : list A)
    (d0 dl start_date end_date : Z) :
  length dates = length data →
  head dates = Some d0 → last dates = Some dl →
  ((d0 ≤ start_date ≤ dl)%Z ∧ start_date ∉ dates) ∨
  ((d0 ≤ end_date ≤ dl)%Z ∧ end_date ∉ dates) →
  helpers.subset_data dates data start_date end_date = Raise TypeError.
Proof.
  intros Hlen Hfirst Hlast Hmiss.
  apply (subset_data_lookup_failure _ _ d0 dl _ _ Hlen Hfirst Hlast).
  destruct Hmiss as [[Hr Hnin]|[Hr Hnin]]; [left|right];
    apply not_in_not_once.
  - replace (clamp_start d0 dl start_date) with start_date; [exact Hnin|].
    unfold clamp_start. compare_dates; lia.
  - replace (clamp_end d0 dl end_date) with end_date; [exact Hnin|].
    unfold clamp_end. compare_dates; lia.
Qed.

Lemma subset_data_unknown_date_witness :
  helpers.subset_data [1; 3; 5]%Z [10; 30; 50]%float 2 5 = Raise TypeError.
Proof.
  apply (subset_data_unknown_date [1; 3; 5]%Z [10; 30; 50]%float 1 5 2 5
           eq_refl eq_refl eq_refl).
  left. split; [lia|].
  intros Hin. repeat (apply elem_of_cons in Hin as [Hin|Hin]; [lia|]).
  apply elem_of_nil in Hin. exact Hin.
Defined.

(** X6. The order of the two arguments of [find_start_end_dates] does
    not matter: the two series can be swapped, with the same common
    range or the same exception. *)
Theorem find_start_end_dates_symmetric (model_dates observed_dates : list Z) :
  helpers.find_start_end_dates model_dates observed_dates
  = helpers.find_start_end_dates observed_dates model_dates.
Proof.
  unfold helpers.find_start_end_dates.
  destruct (decide (model_dates = [])) as [->|Hm].
  { rewrite !getitem_nil.
    destruct (decide (observed_dates = [])) as [->|Ho];
      [rewrite !getitem_nil; reflexivity|].
    destruct (nonempty_first_last _ Ho) as (o0 & ol & Ho0 & Hol).
    rewrite (getitem_first _ _ Ho0). reflexivity. }
  destruct (decide (observed_dates = [])) as [->|Ho].
  { rewrite !getitem_nil.
    destruct (nonempty_first_last _ Hm) as (m0 & ml & Hm0 & Hml).
    rewrite (getitem_first _ _ Hm0). reflexivity. }
  destruct (nonempty_first_last _ Hm) as (m0 & ml & Hm0 & Hml).
  destruct (nonempty_first_last _ Ho) as (o0 & ol & Ho0 & Hol).
  rewrite (getitem_first _ _ Hm0), (getitem_first _ _ Ho0),
    (getitem_last _ _ Hml), (getitem_last _ _ Hol), !bind_Ok.
  compare_dates; do 2 f_equal; lia.
Qed.

(** X7. [find_start_end_dates] raises, with [IndexError], exactly when
    one of the two date arrays is empty. *)
Theorem find_start_end_dates_empty (model_dates observed_dates : list Z) :
  (model_dates = [] ∨ observed_dates = [] ↔
   helpers.find_start_end_dates model_dates observed_dates
   = Raise IndexError) ∧
  (model_dates ≠ [] ∧ observed_dates ≠ [] ↔
   ∃ range, helpers.find_start_end_dates model_dates observed_dates
            = Ok range).
Proof.
  unfold helpers.find_start_end_dates.
  destruct (decide (observed_dates = [])) as [->|Ho].
  { rewrite (getitem_nil 0), bind_Raise. split; split.
    - reflexivity.
    - intros _. right. reflexivity.
    - intros [_ Hne]. exfalso. apply Hne. reflexivity.
    - intros [range Hr]. discriminate. }
  destruct (decide (model_dates = [])) as [->|Hm].
  { destruct (nonempty_first_last _ Ho) as (o0 & ol & Ho0 & Hol).
    rewrite (getitem_first _ _ Ho0), bind_Ok, (getitem_nil 0), bind_Raise.
    split; split.
    - reflexivity.
    - intros _. left. reflexivity.
    - intros [Hne _]. exfalso. apply Hne. reflexivity.
    - intros [range Hr]. discriminate. }
  destruct (nonempty_first_last _ Hm) as (m0 & ml & Hm0 & Hml).
  destruct (nonempty_first_last _ Ho) as (o0 & ol & Ho0 & Hol).
  rewrite (getitem_first _ _ Hm0), (getitem_first _ _ Ho0),
    (getitem_last _ _ Hml), (getitem_last _ _ Hol), !bind_Ok.
  split; split.
  - intros [Hnil|Hnil]; contradiction.
  - discriminate.
  - intros _. eexists. reflexivity.
  - intros _. split; assumption.
Qed.

(** * The comparison step of main *)

Lemma find_start_end_dates_range
    (model_dates observed_dates : list Z) (m0 ml o0 ol : Z) :
  head model_dates = Some m0 → last model_dates = Some ml →
  head observed_dates = Some o0 → last observed_dates = Some ol →
  helpers.find_start_end_dates model_dates observed_dates
  = Ok (Z.max m0 o0, Z.min ml ol).
Proof.
  intros Hm0 Hml Ho0 Hol. unfold helpers.find_start_end_dates.
  rewrite (getitem_first _ _ Hm0), (getitem_first _ _ Ho0),
    (getitem_last _ _ Hml), (getitem_last _ _ Hol), !bind_Ok.
  compare_dates; do 2 f_equal; lia.
Qed.

Lemma subset_data_whole {A} (dates : list Z) (data : list A)
    (d0 dl s e : Z) :
  strictly_ascending dates → length dates = length data →
  head dates = Some d0 → last dates = Some dl →
  clamp_start d0 dl s = d0 → clamp_end d0 dl e = dl →
  helpers.subset_data dates data s e = Ok (helpers.Subset dates data).
Proof.
  intros Hasc Hlen Hfirst Hlast Hs He.
  rewrite (subset_data_body _ _ d0 dl _ _ Hlen Hfirst Hlast), Hs, He.
  rewrite head_lookup in Hfirst. rewrite last_lookup in Hlast.
  rewrite (int_of_where_once _ _ _ Hfirst
             (strictly_ascending_occurs_once _ _ _ Hasc Hfirst)), bind_Ok.
  rewrite (int_of_where_once _ _ _ Hlast
             (strictly_ascending_occurs_once _ _ _ Hasc Hlast)), bind_Ok.
  apply lookup_lt_Some in Hlast.
  rewrite !slice_all by lia. reflexivity.
Qed.

Lemma strictly_ascending_first_last (dates : list Z) (d0 dl : Z) :
  strictly_ascending dates → head dates = Some d0 → last dates = Some dl →
  (d0 ≤ dl)%Z.
Proof.
  intros Hasc. apply ascending_first_last.
  intros i j a b Hij Hi Hj. pose proof (Hasc i j a b Hij Hi Hj). lia.
Qed.

Lemma strictly_ascending_bounds (dates : list Z) (d0 dl d : Z) :
  strictly_ascending dates → head dates = Some d0 → last dates = Some dl →
  d ∈ dates → (d0 ≤ d ≤ dl)%Z.
Proof.
  intros Hasc Hfirst Hlast Hin.
  apply list_elem_of_lookup in Hin as [k Hk].
  rewrite head_lookup in Hfirst. rewrite last_lookup in Hlast.
  pose proof (lookup_lt_Some _ _ _ Hk) as Hklt.
  split.
  - destruct (decide (k = 0)) as [->|Hk0].
    + assert (d = d0) by congruence. lia.
    + pose proof (Hasc 0 k d0 d ltac:(lia) Hfirst Hk). lia.
  - destruct (decide (k = pred (length dates))) as [->|Hkl].
    + assert (d = dl) by congruence. lia.
    + pose proof (Hasc k (pred (length dates)) d dl ltac:(lia) Hk Hlast).
      lia.
Qed.

Lemma clamp_in_range (d0 dl s e : Z) :
  (d0 ≤ s ≤ dl)%Z → (d0 ≤ e ≤ dl)%Z →
  clamp_start d0 dl s = s ∧ clamp_end d0 dl e = e.
Proof.
  intros Hs He. unfold clamp_start, clamp_end.
  split; compare_dates; lia.
Qed.

Lemma window_data_length {A} (s e : Z) (dates : list Z) (data : list A) :
  length dates = length data →
  length (window_data s e dates data) = length (window_dates s e dates).
Proof.
  unfold window_data, window_dates. revert data.
  induction dates as [|d dates IH]; intros [|x data] Hlen;
    try discriminate; [reflexivity|].
  injection Hlen as Hlen. simpl zip.
  destruct (decide (in_window s e d)) as [Hd|Hd].
  - rewrite !filter_cons_True by exact Hd. simpl. f_equal. apply IH, Hlen.
  - rewrite !filter_cons_False by exact Hd. apply IH, Hlen.
Qed.

Section main_facts.
Context `{NumPy}.

(** When the common start and end dates are dates of both series, the
    comparison is made between the two windows. *)
Lemma main_compare_windows
    (user_parameter model_name observed_name : string)
    (water_dates nwis_dates : list Z)
    (water_parameter nwis_parameter : list float) (m0 ml o0 ol : Z) :
  strictly_ascending water_dates → strictly_ascending nwis_dates →
  length water_dates = length water_parameter →
  length nwis_dates = length nwis_parameter →
  head water_dates = Some m0 → last water_dates = Some ml →
  head nwis_dates = Some o0 → last nwis_dates = Some ol →
  Z.max m0 o0 ∈ water_dates → Z.max m0 o0 ∈ nwis_dates →
  Z.min ml ol ∈ water_dates → Z.min ml ol ∈ nwis_dates →
  main_compare user_parameter model_name observed_name
    water_dates water_parameter nwis_dates nwis_parameter
  = hydrocomp.compare user_parameter model_name observed_name
      (window_data (Z.max m0 o0) (Z.min ml ol) water_dates water_parameter)
      (window_data (Z.max m0 o0) (Z.min ml ol) nwis_dates nwis_parameter)
      (window_dates (Z.max m0 o0) (Z.min ml ol) nwis_dates).
Proof.
  intros Hwa Hna Hwl Hnl Hm0 Hml Ho0 Hol Hsw Hsn Hew Hen.
  unfold main_compare.
  rewrite (find_start_end_dates_range _ _ _ _ _ _ Hm0 Hml Ho0 Hol), bind_Ok.
  cbv zeta. simpl fst. simpl snd.
  set (s := Z.max m0 o0) in *. set (e := Z.min ml ol) in *.
  destruct (clamp_in_range m0 ml s e
              (strictly_ascending_bounds _ _ _ _ Hwa Hm0 Hml Hsw)
              (strictly_ascending_bounds _ _ _ _ Hwa Hm0 Hml Hew))
    as [Hcsw Hcew].
  destruct (clamp_in_range o0 ol s e
              (strictly_ascending_bounds _ _ _ _ Hna Ho0 Hol Hsn)
              (strictly_ascending_bounds _ _ _ _ Hna Ho0 Hol Hen))
    as [Hcsn Hcen].
  rewrite (subset_data_window_eq water_dates water_parameter m0 ml s e
             Hwa Hwl Hm0 Hml)
    by (rewrite ?Hcsw, ?Hcew; assumption).
  rewrite bind_Ok.
  rewrite (subset_data_window_eq nwis_dates nwis_parameter o0 ol s e
             Hna Hnl Ho0 Hol)
    by (rewrite ?Hcsn, ?Hcen; assumption).
  rewrite bind_Ok. simpl. rewrite Hcsw, Hcew, Hcsn, Hcen. reflexivity.
Qed.

End main_facts.

Lemma head_elem_of {B} (l : list B) (x : B) : head l = Some x → x ∈ l.
Proof.
  rewrite head_lookup. intros Hx. eapply list_elem_of_lookup_2, Hx.
Qed.

Lemma last_elem_of {B} (l : list B) (x : B) : last l = Some x → x ∈ l.
Proof.
  rewrite last_lookup. intros Hx. eapply list_elem_of_lookup_2, Hx.
Qed.

(** With the same dates in the common range, the boundary dates of the
    range are dates of both series. *)
Lemma common_range_members (water_dates nwis_dates : list Z)
    (m0 ml o0 ol : Z) :
  head water_dates = Some m0 → last water_dates = Some ml →
  head nwis_dates = Some o0 → last nwis_dates = Some ol →
  (Z.max m0 o0 ≤ Z.min ml ol)%Z →
  window_dates (Z.max m0 o0) (Z.min ml ol) water_dates
  = window_dates (Z.max m0 o0) (Z.min ml ol) nwis_dates →
  (Z.max m0 o0 ∈ water_dates ∧ Z.max m0 o0 ∈ nwis_dates) ∧
  (Z.min ml ol ∈ water_dates ∧ Z.min ml ol ∈ nwis_dates).
Proof.
  intros Hm0 Hml Ho0 Hol Hse Hw.
  apply head_elem_of in Hm0, Ho0. apply last_elem_of in Hml, Hol.
  assert (∀ d, in_window (Z.max m0 o0) (Z.min ml ol) d →
               d ∈ water_dates ∨ d ∈ nwis_dates →
               d ∈ water_dates ∧ d ∈ nwis_dates) as Hboth.
  { intros d Hd [Hin|Hin].
    - split; [exact Hin|].
      assert (d ∈ window_dates (Z.max m0 o0) (Z.min ml ol) water_dates)
        as Hdw by (apply list_elem_of_filter; auto).
      rewrite Hw in Hdw. apply list_elem_of_filter in Hdw as [_ Hdn].
      exact Hdn.
    - split; [|exact Hin].
      assert (d ∈ window_dates (Z.max m0 o0) (Z.min ml ol) nwis_dates)
        as Hdn by (apply list_elem_of_filter; auto).
      rewrite <- Hw in Hdn. apply list_elem_of_filter in Hdn as [_ Hdw].
      exact Hdw. }
  split; apply Hboth; unfold in_window; try lia.
  - destruct (Z.max_spec m0 o0) as [[_ ->]|[_ ->]]; auto.
  - destruct (Z.min_spec ml ol) as [[_ ->]|[_ ->]]; auto.
Qed.

(** X8. The comparison step of [main] compares by position, not by
    date: when the common start and end dates are dates of both series
    (strictly ascending, with data of the same lengths), [compare]
    receives the values of the model window and of the observed window
    and the dates of the observed window, each window as long as its
    values; whether the two windows hold the same dates is never
    looked at. *)
Theorem main_compare_by_position `{NumPy}
    (user_parameter model_name observed_name : string)
    (water_dates nwis_dates : list Z)
    (water_parameter nwis_parameter : list float) (m0 ml o0 ol s e : Z) :
  strictly_ascending water_dates → strictly_ascending nwis_dates →
  length water_dates = length water_parameter →
  length nwis_dates = length nwis_parameter →
  head water_dates = Some m0 → last water_dates = Some ml →
  head nwis_dates = Some o0 → last nwis_dates = Some ol →
  s = Z.max m0 o0 → e = Z.min ml ol →
  s ∈ water_dates → s ∈ nwis_dates → e ∈ water_dates → e ∈ nwis_dates →
  main_compare user_parameter model_name observed_name
    water_dates water_parameter nwis_dates nwis_parameter
  = hydrocomp.compare user_parameter model_name observed_name
      (window_data s e water_dates water_parameter)
      (window_data s e nwis_dates nwis_parameter)
      (window_dates s e nwis_dates) ∧
  length (window_data s e water_dates water_parameter)
  = length (window_dates s e water_dates) ∧
  length (window_data s e nwis_dates nwis_parameter)
  = length (window_dates s e nwis_dates).
Proof.
  intros Hwa Hna Hwl Hnl Hm0 Hml Ho0 Hol -> -> Hsw Hsn Hew Hen.
  split; [|split; apply window_data_length; assumption].
  apply (main_compare_windows _ _ _ _ _ _ _ m0 ml o0 ol); assumption.
Qed.

(** X9. When the two series (strictly ascending, with data of the same
    lengths) overlap and hold the same dates within their common range,
    both calls of [subset_data] succeed and return exactly those dates,
    and the two value arrays handed to [compare] have equal lengths, as
    its length test requires. *)
Theorem common_range_subsets_aligned
    (water_dates nwis_dates : list Z)
    (water_parameter nwis_parameter : list float) (m0 ml o0 ol s e : Z) :
  strictly_ascending water_dates → strictly_ascending nwis_dates →
  length water_dates = length water_parameter →
  length nwis_dates = length nwis_parameter →
  head water_dates = Some m0 → last water_dates = Some ml →
  head nwis_dates = Some o0 → last nwis_dates = Some ol →
  s = Z.max m0 o0 → e = Z.min ml ol → (s ≤ e)%Z →
  window_dates s e water_dates = window_dates s e nwis_dates →
  helpers.subset_data water_dates water_parameter s e
  = Ok (helpers.Subset (window_dates s e nwis_dates)
          (window_data s e water_dates water_parameter)) ∧
  helpers.subset_data nwis_dates nwis_parameter s e
  = Ok (helpers.Subset (window_dates s e nwis_dates)
          (window_data s e nwis_dates nwis_parameter)) ∧
  length (window_data s e water_dates water_parameter)
  = length (window_data s e nwis_dates nwis_parameter).
Proof.
  intros Hwa Hna Hwl Hnl Hm0 Hml Ho0 Hol -> -> Hse Hw.
  destruct (common_range_members _ _ _ _ _ _ Hm0 Hml Ho0 Hol Hse Hw)
    as [[Hsw Hsn] [Hew Hen]].
  set (s := Z.max m0 o0) in *. set (e := Z.min ml ol) in *.
  destruct (clamp_in_range m0 ml s e
              (strictly_ascending_bounds _ _ _ _ Hwa Hm0 Hml Hsw)
              (strictly_ascending_bounds _ _ _ _ Hwa Hm0 Hml Hew))
    as [Hcsw Hcew].
  destruct (clamp_in_range o0 ol s e
              (strictly_ascending_bounds _ _ _ _ Hna Ho0 Hol Hsn)
              (strictly_ascending_bounds _ _ _ _ Hna Ho0 Hol Hen))
    as [Hcsn Hcen].
  assert (length (window_data s e water_dates water_parameter)
          = length (window_data s e nwis_dates nwis_parameter)) as Hlen.
  { rewrite !window_data_length by assumption. rewrite Hw. reflexivity. }
  repeat split.
  - rewrite (subset_data_window_eq water_dates water_parameter m0 ml s e
               Hwa Hwl Hm0 Hml)
      by (rewrite ?Hcsw, ?Hcew; assumption).
    rewrite Hcsw, Hcew, Hw. reflexivity.
  - rewrite (subset_data_window_eq nwis_dates nwis_parameter o0 ol s e
               Hna Hnl Ho0 Hol)
      by (rewrite ?Hcsn, ?Hcen; assumption).
    rewrite Hcsn, Hcen. reflexivity.
  - exact Hlen.
Qed.

Lemma common_range_subsets_aligned_witness :
  helpers.subset_data [1; 2; 3; 4; 5]%Z [1; 2; 3; 4; 5]%float 3 5
  = Ok (helpers.Subset (window_dates 3 5 [3; 4; 5; 6; 7]%Z)
          (window_data 3 5 [1; 2; 3; 4; 5]%Z [1; 2; 3; 4; 5]%float)) ∧
  helpers.subset_data [3; 4; 5; 6; 7]%Z [30; 40; 50; 60; 70]%float 3 5
  = Ok (helpers.Subset (window_dates 3 5 [3; 4; 5; 6; 7]%Z)
          (window_data 3 5 [3; 4; 5; 6; 7]%Z [30; 40; 50; 60; 70]%float)) ∧
  length (window_data 3 5 [1; 2; 3; 4; 5]%Z [1; 2; 3; 4; 5]%float)
  = length (window_data 3 5 [3; 4; 5; 6; 7]%Z [30; 40; 50; 60; 70]%float).
Proof.
  apply (common_range_subsets_aligned
           [1; 2; 3; 4; 5]%Z [3; 4; 5; 6; 7]%Z
           [1; 2; 3; 4; 5]%float [30; 40; 50; 60; 70]%float 1 5 3 7 3 5).
  - ascending_literals.
  - ascending_literals.
  - reflexivity.
  - reflexivity.
  - reflexivity.
  - reflexivity.
  - reflexivity.
  - reflexivity.
  - reflexivity.
  - reflexivity.
  - lia.
  - reflexivity.
Defined.

Lemma main_compare_by_position_witness :
  @main_compare seq_numpy "discharge" "model" "gauge"
    [1; 2; 4]%Z [1; 2; 4]%float [1; 3; 4]%Z [10; 30; 40]%float
  = @hydrocomp.compare seq_numpy "discharge" "model" "gauge"
      (window_data 1 4 [1; 2; 4]%Z [1; 2; 4]%float)
      (window_data 1 4 [1; 3; 4]%Z [10; 30; 40]%float)
      (window_dates 1 4 [1; 3; 4]%Z) ∧
  length (window_data 1 4 [1; 2; 4]%Z [1; 2; 4]%float)
  = length (window_dates 1 4 [1; 2; 4]%Z) ∧
  length (window_data 1 4 [1; 3; 4]%Z [10; 30; 40]%float)
  = length (window_dates 1 4 [1; 3; 4]%Z).
Proof.
  apply (@main_compare_by_position seq_numpy "discharge" "model" "gauge"
           [1; 2; 4]%Z [1; 3; 4]%Z [1; 2; 4]%float [10; 30; 40]%float
           1 4 1 4 1 4).
  - ascending_literals.
  - ascending_literals.
  - reflexivity.
  - reflexivity.
  - reflexivity.
  - reflexivity.
  - reflexivity.
  - reflexivity.
  - reflexivity.
  - reflexivity.
  - apply list_elem_of_lookup. exists 0. reflexivity.
  - apply list_elem_of_lookup. exists 0. reflexivity.
  - apply list_elem_of_lookup. exists 2. reflexivity.
  - apply list_elem_of_lookup. exists 2. reflexivity.
Defined.

(** X10. When the common start and end dates are dates of both series
    but the two series hold different numbers of dates within the common
    range (a different sampling), the comparison step of [main] fails
    with the length error of [compare]. *)
Theorem main_compare_different_sampling `{NumPy}
    (user_parameter model_name observed_name : string)
    (water_dates nwis_dates : list Z)
    (water_parameter nwis_parameter : list float) (m0 ml o0 ol s e : Z) :
  strictly_ascending water_dates → strictly_ascending nwis_dates →
  length water_dates = length water_parameter →
  length nwis_dates = length nwis_parameter →
  head water_dates = Some m0 → last water_dates = Some ml →
  head nwis_dates = Some o0 → last nwis_dates = Some ol →
  s = Z.max m0 o0 → e = Z.min ml ol →
  s ∈ water_dates → s ∈ nwis_dates → e ∈ water_dates → e ∈ nwis_dates →
  length (window_dates s e water_dates)
  ≠ length (window_dates s e nwis_dates) →
  main_compare user_parameter model_name observed_name
    water_dates water_parameter nwis_dates nwis_parameter
  = Raise hydrocomp.length_error.
Proof.
  intros Hwa Hna Hwl Hnl Hm0 Hml Ho0 Hol -> -> Hsw Hsn Hew Hen Hne.
  rewrite (main_compare_windows _ _ _ _ _ _ _ m0 ml o0 ol) by assumption.
  apply compare_mismatch.
  rewrite !window_data_length by assumption. exact Hne.
Qed.

Lemma main_compare_different_sampling_witness :
  @main_compare seq_numpy "discharge" "model" "gauge"
    [1; 2; 3; 4; 5]%Z [1; 2; 3; 4; 5]%float [1; 3; 5]%Z [10; 30; 50]%float
  = Raise hydrocomp.length_error.
Proof.
  apply (@main_compare_different_sampling seq_numpy "discharge" "model"
           "gauge" [1; 2; 3; 4; 5]%Z [1; 3; 5]%Z
           [1; 2; 3; 4; 5]%float [10; 30; 50]%float 1 5 1 5 1 5).
  - ascending_literals.
  - ascending_literals.
  - reflexivity.
  - reflexivity.
  - reflexivity.
  - reflexivity.
  - reflexivity.
  - reflexivity.
  - reflexivity.
  - reflexivity.
  - apply list_elem_of_lookup. exists 0. reflexivity.
  - apply list_elem_of_lookup. exists 0. reflexivity.
  - apply list_elem_of_lookup. exists 4. reflexivity.
  - apply list_elem_of_lookup. exists 2. reflexivity.
  - simpl. lia.
Defined.

(** X11. Series that do not overlap are not rejected: when every model
    date lies before every observed date, or the other way round (both
    series strictly ascending, with data of the same lengths), both
    calls of [subset_data] clamp the window back to the whole series and
    the comparison step of [main] compares the two complete series. *)
Theorem main_compare_disjoint_ranges `{NumPy}
    (user_parameter model_name observed_name : string)
    (water_dates nwis_dates : list Z)
    (water_parameter nwis_parameter : list float) (m0 ml o0 ol : Z) :
  strictly_ascending water_dates → strictly_ascending nwis_dates →
  length water_dates = length water_parameter →
  length nwis_dates = length nwis_parameter →
  head water_dates = Some m0 → last water_dates = Some ml →
  head nwis_dates = Some o0 → last nwis_dates = Some ol →
  (ml < o0 ∨ ol < m0)%Z →
  main_compare user_parameter model_name observed_name
    water_dates water_parameter nwis_dates nwis_parameter
  = hydrocomp.compare user_parameter model_name observed_name
      water_parameter nwis_parameter nwis_dates.
Proof.
  intros Hwa Hna Hwl Hnl Hm0 Hml Ho0 Hol Hdis.
  pose proof (strictly_ascending_first_last _ _ _ Hwa Hm0 Hml) as Hm.
  pose proof (strictly_ascending_first_last _ _ _ Hna Ho0 Hol) as Ho.
  unfold main_compare.
  rewrite (find_start_end_dates_range _ _ _ _ _ _ Hm0 Hml Ho0 Hol), bind_Ok.
  cbv zeta. simpl fst. simpl snd.
  rewrite (subset_data_whole water_dates water_parameter m0 ml _ _
             Hwa Hwl Hm0 Hml), bind_Ok.
  - rewrite (subset_data_whole nwis_dates nwis_parameter o0 ol _ _
               Hna Hnl Ho0 Hol), bind_Ok; [reflexivity|..].
    + unfold clamp_start.
      destruct (Z.max_spec m0 o0) as [[_ ->]|[_ ->]]; compare_dates; lia.
    + unfold clamp_end.
      destruct (Z.min_spec ml ol) as [[_ ->]|[_ ->]]; compare_dates; lia.
  - unfold clamp_start.
    destruct (Z.max_spec m0 o0) as [[_ ->]|[_ ->]]; compare_dates; lia.
  - unfold clamp_end.
    destruct (Z.min_spec ml ol) as [[_ ->]|[_ ->]]; compare_dates; lia.
Qed.

Lemma main_compare_disjoint_ranges_witness :
  @main_compare seq_numpy "discharge" "model" "gauge"
    [1; 2; 3]%Z [1; 2; 4]%float [7; 8; 9]%Z [10; 30; 40]%float
  = @hydrocomp.compare seq_numpy "discharge" "model" "gauge"
      [1; 2; 4]%float [10; 30; 40]%float [7; 8; 9]%Z.
Proof.
  apply (@main_compare_disjoint_ranges seq_numpy "discharge" "model" "gauge"
           [1; 2; 3]%Z [7; 8; 9]%Z [1; 2; 4]%float [10; 30; 40]%float
           1 3 7 9).
  - ascending_literals.
  - ascending_literals.
  - reflexivity.
  - reflexivity.
  - reflexivity.
  - reflexivity.
  - reflexivity.
  - reflexivity.
  - left. lia.
Defined.

(** X12. The comparison step of [main] raises [IndexError] when either
    series has no dates at all. *)
Theorem main_compare_empty_series `{NumPy}
    (user_parameter model_name observed_name : string)
    (water_dates nwis_dates : list Z)
    (water_parameter nwis_parameter : list float) :
  water_dates = [] ∨ nwis_dates = [] →
  main_compare user_parameter model_name observed_name
    water_dates water_parameter nwis_dates nwis_parameter
  = Raise IndexError.
Proof.
  intros Hempty. unfold main_compare, helpers.find_start_end_dates.
  destruct (decide (nwis_dates = [])) as [->|Ho];
    [rewrite (getitem_nil 0); reflexivity|].
  destruct Hempty as [->|Hn]; [|contradiction].
  destruct (nonempty_first_last _ Ho) as (o0 & ol & Ho0 & Hol).
  rewrite (getitem_first _ _ Ho0), bind_Ok, (getitem_nil 0). reflexivity.
Qed.

Lemma main_compare_empty_series_witness :
  @main_compare seq_numpy "discharge" "model" "gauge"
    [] [] [7; 8; 9]%Z [10; 30; 40]%float
  = Raise IndexError.
Proof.
  apply (@main_compare_empty_series seq_numpy). left. reflexivity.
Defined.

(** * Further properties of compare *)

Section compare_more.
Context `{NumPy}.
Implicit Types (modeled observed : list float) (dates : list Z).

(** What a successful call of [compare] went through. *)
Lemma compare_inv (parameter_name model_name observed_name : string)
    modeled observed dates (c : hydrocomp.comp_data) :
  hydrocomp.compare parameter_name model_name observed_name
    modeled observed dates = Ok c →
  ∃ d0 d1 re pe pd mse r2 nse,
    length modeled = length observed ∧
    py.getitem dates 1 = Ok d1 ∧ py.getitem dates 0 = Ok d0 ∧
    statistics.relative_error modeled observed = Ok re ∧
    statistics.percent_error modeled observed = Ok pe ∧
    statistics.percent_difference modeled observed = Ok pd ∧
    statistics.mean_squared_error modeled observed = Ok mse ∧
    statistics.r_squared modeled observed = Ok r2 ∧
    statistics.nash_sutcliffe modeled observed = Ok nse ∧
    c = hydrocomp.CompData parameter_name model_name observed_name
          modeled observed dates (d1 - d0)
          (Some (<["nash_sutcliffe_coeff" :=
                     Some (hydrocomp.Scalar nse)]>
                  (<["r_squared_coeff" :=
                       Some (hydrocomp.Scalar (py.Float r2))]>
                    (<["mean_squared_error" :=
                         Some (hydrocomp.Scalar (py.Float mse))]>
                      (<["percent_difference" :=
                           Some (hydrocomp.Array pd)]>
                        (<["percent_error" := Some (hydrocomp.Array pe)]>
                          (<["relative_error" :=
                               Some (hydrocomp.Array re)]>
                            hydrocomp.empty_stats))))))).
Proof.
  intros Hok.
  destruct (decide (length modeled = length observed)) as [Hlen|Hne];
    [|rewrite (compare_mismatch _ _ _ _ _ _ Hne) in Hok; discriminate].
  unfold hydrocomp.compare in Hok.
  rewrite Hlen, Nat.eqb_refl in Hok. simpl negb in Hok. cbv iota in Hok.
  destruct (py.getitem dates 1) as [d1|]; [|discriminate].
  rewrite bind_Ok in Hok.
  destruct (py.getitem dates 0) as [d0|]; [|discriminate].
  rewrite bind_Ok in Hok.
  destruct (statistics.relative_error modeled observed) as [re|];
    [|discriminate].
  rewrite bind_Ok in Hok.
  destruct (statistics.percent_error modeled observed) as [pe|];
    [|discriminate].
  rewrite bind_Ok in Hok.
  destruct (statistics.percent_difference modeled observed) as [pd|];
    [|discriminate].
  rewrite bind_Ok in Hok.
  destruct (statistics.mean_squared_error modeled observed) as [mse|];
    [|discriminate].
  rewrite bind_Ok in Hok.
  destruct (statistics.r_squared modeled observed) as [r2|];
    [|discriminate].
  rewrite bind_Ok in Hok.
  destruct (statistics.nash_sutcliffe modeled observed) as [nse|];
    [|discriminate].
  rewrite bind_Ok in Hok. injection Hok as <-.
  exists d0, d1, re, pe, pd, mse, r2, nse. repeat split; assumption.
Qed.

Lemma getitem_lookup {B} (l : list B) (i : nat) (x : B) :
  py.getitem l (Z.of_nat i) = Ok x → l !! i = Some x.
Proof.
  unfold py.getitem.
  destruct (Z.ltb_spec (Z.of_nat i) 0) as [Hneg|_]; [lia|].
  destruct (Z.ltb_spec (Z.of_nat i) 0) as [Hneg|_]; [lia|].
  rewrite Nat2Z.id. destruct (l !! i); [congruence|discriminate].
Qed.

End compare_more.

(** X13. With value arrays of equal lengths, [compare] raises
    [IndexError] when [dates] has fewer than two entries: the timestep
    [dates[1] - dates[0]] is computed before any statistic. *)
Theorem compare_needs_two_dates `{NumPy}
    (parameter_name model_name observed_name : string)
    (modeled observed : list float) (dates : list Z) :
  length modeled = length observed → length dates < 2 →
  hydrocomp.compare parameter_name model_name observed_name
    modeled observed dates = Raise IndexError.
Proof.
  intros Hlen Hdates. unfold hydrocomp.compare.
  rewrite Hlen, Nat.eqb_refl. simpl negb. cbv iota.
  destruct dates as [|d0 [|d1 rest]]; [reflexivity..|simpl in Hdates; lia].
Qed.

Lemma compare_needs_two_dates_witness :
  @hydrocomp.compare seq_numpy "discharge" "model" "gauge"
    model_data observed_data [1%Z]
  = Raise IndexError.
Proof.
  apply (@compare_needs_two_dates seq_numpy); [reflexivity|simpl; lia].
Defined.

(** X14. A result returned by [compare] carries its arguments
    unchanged (the three names, the two value arrays and the dates), and
    its timestep is the difference of the first two dates. *)
Theorem compare_keeps_arguments `{NumPy}
    (parameter_name model_name observed_name : string)
    (modeled observed : list float) (dates : list Z)
    (c : hydrocomp.comp_data) :
  hydrocomp.compare parameter_name model_name observed_name
    modeled observed dates = Ok c →
  hydrocomp.parameter_name c = parameter_name ∧
  hydrocomp.model_name c = model_name ∧
  hydrocomp.observed_name c = observed_name ∧
  hydrocomp.modeled_parameter c = modeled ∧
  hydrocomp.observed_parameter c = observed ∧
  hydrocomp.dates c = dates ∧
  ∃ d0 d1, dates !! 0 = Some d0 ∧ dates !! 1 = Some d1 ∧
           hydrocomp.timestep c = (d1 - d0)%Z.
Proof.
  intros Hok.
  apply compare_inv in Hok
    as (d0 & d1 & re & pe & pd & mse & r2 & nse & _ & Hd1 & Hd0 & _ & _ &
        _ & _ & _ & _ & ->).
  simpl. repeat split.
  exists d0, d1. repeat split.
  - exact (getitem_lookup dates 0 d0 Hd0).
  - exact (getitem_lookup dates 1 d1 Hd1).
Qed.

Lemma compare_keeps_arguments_witness :
  ∃ c, @hydrocomp.compare seq_numpy "discharge" "model" "gauge"
         model_data observed_data [10; 13; 16; 19; 22]%Z = Ok c ∧
       hydrocomp.parameter_name c = "discharge" ∧
       hydrocomp.model_name c = "model" ∧
       hydrocomp.observed_name c = "gauge" ∧
       hydrocomp.modeled_parameter c = model_data ∧
       hydrocomp.observed_parameter c = observed_data ∧
       hydrocomp.dates c = [10; 13; 16; 19; 22]%Z ∧
       ∃ d0 d1, [10; 13; 16; 19; 22]%Z !! 0 = Some d0 ∧
                [10; 13; 16; 19; 22]%Z !! 1 = Some d1 ∧
                hydrocomp.timestep c = (d1 - d0)%Z.
Proof.
  eexists. split; [vm_compute; reflexivity|].
  apply (@compare_keeps_arguments seq_numpy "discharge" "model" "gauge"
           model_data observed_data [10; 13; 16; 19; 22]%Z).
  vm_compute. reflexivity.
Defined.

(** * Further properties of statistics.py *)

Lemma percent_difference_equal_lengths (x x_true : list float) :
  length x = length x_true →
  statistics.percent_difference x x_true
  = Ok (elementwise
          (λ i, (item x i - item x_true i)
                / ((item x i + item x_true i) / 2) * 100)%float
          (length x)).
Proof.
  intros Hlen. unfold statistics.percent_difference, statistics.np_average_pair.
  rewrite !broadcast_equal_lengths by exact Hlen. rewrite bind_Ok.
  rewrite bind_Ok.
  rewrite broadcast_equal_lengths by (rewrite !elementwise_length; reflexivity).
  rewrite bind_Ok, map_elementwise, elementwise_length. f_equal.
  apply elementwise_ext. intros i Hi.
  rewrite !elementwise_item by exact Hi. reflexivity.
Qed.



Example percent_difference_docstring :
  statistics.percent_difference model_data observed_data
  = Ok [-0.35971223021583243; 0.1611603545527823; -0.30581039755352118;
        -0.4647560030983689; 0.16353229762878399]%float.
Proof. vm_compute. reflexivity. Qed.

(** X16. A result returned by [compare] stores, under the six statistic
    names, exactly what the six functions of [statistics.py] return on
    the two value arrays; the three error arrays have one entry per
    value. *)
Theorem compare_stores_statistics `{NumPy}
    (parameter_name model_name observed_name : string)
    (modeled observed : list float) (dates : list Z)
    (c : hydrocomp.comp_data) :
  hydrocomp.compare parameter_name model_name observed_name
    modeled observed dates = Ok c →
  ∃ st re pe pd mse r2 nse,
    hydrocomp.stats c = Some st ∧
    statistics.relative_error modeled observed = Ok re ∧
    st !! "relative_error" = Some (Some (hydrocomp.Array re)) ∧
    statistics.percent_error modeled observed = Ok pe ∧
    st !! "percent_error" = Some (Some (hydrocomp.Array pe)) ∧
    statistics.percent_difference modeled observed = Ok pd ∧
    st !! "percent_difference" = Some (Some (hydrocomp.Array pd)) ∧
    statistics.mean_squared_error modeled observed = Ok mse ∧
    st !! "mean_squared_error"
    = Some (Some (hydrocomp.Scalar (py.Float mse))) ∧
    statistics.r_squared modeled observed = Ok r2 ∧
    st !! "r_squared_coeff" = Some (Some (hydrocomp.Scalar (py.Float r2))) ∧
    statistics.nash_sutcliffe modeled observed = Ok nse ∧
    st !! "nash_sutcliffe_coeff" = Some (Some (hydrocomp.Scalar nse)) ∧
    length re = length modeled ∧ length pe = length modeled ∧
    length pd = length modeled.
Proof.
  intros Hok.
  apply compare_inv in Hok
    as (d0 & d1 & re & pe & pd & mse & r2 & nse & Hlen & _ & _ & Hre & Hpe &
        Hpd & Hmse & Hr2 & Hnse & ->).
  eexists. exists re, pe, pd, mse, r2, nse. simpl.
  split; [reflexivity|].
  repeat (split; [first [assumption | reflexivity]|]).
  rewrite (relative_error_equal_lengths _ _ Hlen) in Hre.
  unfold statistics.percent_error in Hpe.
  rewrite (relative_error_equal_lengths _ _ Hlen), bind_Ok in Hpe.
  rewrite (percent_difference_equal_lengths _ _ Hlen) in Hpd.
  injection Hre as <-. injection Hpe as <-. injection Hpd as <-.
  rewrite length_map, !elementwise_length. auto.
Qed.

Lemma compare_stores_statistics_witness :
  ∃ c, @hydrocomp.compare seq_numpy "discharge" "model" "gauge"
         model_data observed_data [10; 13; 16; 19; 22]%Z = Ok c ∧
  ∃ st re pe pd mse r2 nse,
    hydrocomp.stats c = Some st ∧
    statistics.relative_error model_data observed_data = Ok re ∧
    st !! "relative_error" = Some (Some (hydrocomp.Array re)) ∧
    statistics.percent_error model_data observed_data = Ok pe ∧
    st !! "percent_error" = Some (Some (hydrocomp.Array pe)) ∧
    statistics.percent_difference model_data observed_data = Ok pd ∧
    st !! "percent_difference" = Some (Some (hydrocomp.Array pd)) ∧
    @statistics.mean_squared_error seq_numpy model_data observed_data
    = Ok mse ∧
    st !! "mean_squared_error"
    = Some (Some (hydrocomp.Scalar (py.Float mse))) ∧
    @statistics.r_squared seq_numpy model_data observed_data = Ok r2 ∧
    st !! "r_squared_coeff" = Some (Some (hydrocomp.Scalar (py.Float r2))) ∧
    @statistics.nash_sutcliffe seq_numpy model_data observed_data = Ok nse ∧
    st !! "nash_sutcliffe_coeff" = Some (Some (hydrocomp.Scalar nse)) ∧
    length re = length model_data ∧ length pe = length model_data ∧
    length pd = length model_data.
Proof.
  eexists. split; [vm_compute; reflexivity|].
  apply (@compare_stores_statistics seq_numpy "discharge" "model" "gauge"
           model_data observed_data [10; 13; 16; 19; 22]%Z).
  vm_compute. reflexivity.
Defined.

(** ** Signs of binary64 results *)

Lemma binary_round_aux_cases (sx : bool) (mx ex : Z) (lx : location) :
  binary_round_aux prec emax sx mx ex lx = S754_nan ∨
  binary_round_aux prec emax sx mx ex lx = S754_zero sx ∨
  binary_round_aux prec emax sx mx ex lx = S754_infinity sx ∨
  ∃ m e, binary_round_aux prec emax sx mx ex lx = S754_finite sx m e.
Proof.
  unfold binary_round_aux.
  destruct (shr_fexp prec emax mx ex lx) as [mrs' e'].
  destruct (shr_fexp prec emax _ e' loc_Exact) as [mrs'' e''].
  destruct (shr_m mrs'') as [|m|m]; auto.
  destruct (e'' <=? emax - prec)%Z; eauto 10.
Qed.

(** A square is never below zero (it may be NaN). *)
Lemma square_not_negative (r : float) : (py.square r <? 0)%float = false.
Proof.
  unfold py.square. rewrite ltb_spec, mul_spec, Prim2SF_zero.
  unfold SF64mul.
  destruct (Prim2SF r) as [s|s| |s m e]; simpl.
  - destruct s; reflexivity.
  - destruct s; reflexivity.
  - reflexivity.
  - rewrite Bool.xorb_nilpotent.
    destruct (binary_round_aux_cases false (Z.pos (m * m)) (e + e) loc_Exact)
      as [-> | [-> | [-> | (m' & e' & ->)]]]; reflexivity.
Qed.

(** X17. The coefficient returned by [r_squared] is never negative: the
    test [r_squared(modeled, observed) < 0] is false for every result
    (also when the result is NaN), whatever [np.corrcoef] returns. *)
Theorem r_squared_not_negative `{NumPy} (modeled observed : list float)
    (coefficient : float) :
  statistics.r_squared modeled observed = Ok coefficient →
  (coefficient <? 0)%float = false.
Proof.
  unfold statistics.r_squared.
  destruct (np_corrcoef modeled observed) as [r|]; [|discriminate].
  rewrite bind_Ok. intros [= <-]. apply square_not_negative.
Qed.

Lemma r_squared_not_negative_witness :
  (0.99768587638100936 <? 0)%float = false.
Proof.
  apply (@r_squared_not_negative seq_numpy model_data observed_data).
  vm_compute. reflexivity.
Defined.

Lemma broadcast_incompatible (f : float → float → float) (x y : list float) :
  length x ≠ length y → length x ≠ 1 → length y ≠ 1 →
  py.broadcast f x y = Raise py.broadcast_error.
Proof.
  intros Hne Hx Hy. unfold py.broadcast.
  apply Nat.eqb_neq in Hne. rewrite Hne.
  destruct x as [|a [|a' x]]; destruct y as [|b [|b' y]];
    simpl in *; try reflexivity; try lia.
Qed.

(** X18. Called on arrays whose lengths differ, neither of them being
    one, the statistics built on the difference of the two arrays fail
    with numpy's broadcasting [ValueError]: the functions of
    [statistics.py] make no length test of their own. *)
Theorem statistics_incompatible_lengths `{NumPy} (x x_true : list float) :
  length x ≠ length x_true → length x ≠ 1 → length x_true ≠ 1 →
  statistics.absolute_error x x_true = Raise py.broadcast_error ∧
  statistics.mean_squared_error x x_true = Raise py.broadcast_error ∧
  statistics.relative_error x x_true = Raise py.broadcast_error ∧
  statistics.percent_error x x_true = Raise py.broadcast_error ∧
  statistics.nash_sutcliffe x x_true = Raise py.broadcast_error.
Proof.
  intros Hne Hx Hy.
  unfold statistics.percent_error, statistics.relative_error,
    statistics.mean_squared_error, statistics.nash_sutcliffe,
    statistics.absolute_error.
  rewrite !(broadcast_incompatible _ x x_true) by assumption.
  rewrite (broadcast_incompatible _ x_true x) by auto.
  repeat split; reflexivity.
Qed.

Lemma statistics_incompatible_lengths_witness :
  statistics.absolute_error model_data [55.7; 62.0]%float
  = Raise py.broadcast_error ∧
  @statistics.mean_squared_error seq_numpy model_data [55.7; 62.0]%float
  = Raise py.broadcast_error ∧
  statistics.relative_error model_data [55.7; 62.0]%float
  = Raise py.broadcast_error ∧
  statistics.percent_error model_data [55.7; 62.0]%float
  = Raise py.broadcast_error ∧
  @statistics.nash_sutcliffe seq_numpy model_data [55.7; 62.0]%float
  = Raise py.broadcast_error.
Proof.
  apply (@statistics_incompatible_lengths seq_numpy
           model_data [55.7; 62.0]%float); simpl; lia.
Defined.



(** X21. For an array of finite values compared with itself, the
    absolute error is [0] at every index and the mean squared error is
    [np.mean] of an array of zeros. *)
Theorem absolute_error_of_itself `{NumPy} (x : list float) :
  Forall (λ v, is_finite v = true) x →
  statistics.absolute_error x x = Ok (replicate (length x) 0%float) ∧
  statistics.mean_squared_error x x
  = Ok (np_mean (replicate (length x) 0%float)).
Proof.
  intros Hfin.
  assert (zip_with PrimFloat.sub x x = replicate (length x) 0%float) as Hz.
  { induction Hfin as [|v x Hv _ IH]; [reflexivity|].
    simpl. rewrite (sub_self v Hv), IH. reflexivity. }
  unfold statistics.mean_squared_error, statistics.absolute_error,
    py.broadcast.
  rewrite Nat.eqb_refl, Hz, bind_Ok. split; [reflexivity|].
  do 2 f_equal. clear. induction (length x) as [|n IH]; [reflexivity|].
  simpl. rewrite IH. reflexivity.
Qed.

Lemma absolute_error_of_itself_witness :
  statistics.absolute_error model_data model_data
  = Ok (replicate (length model_data) 0%float) ∧
  @statistics.mean_squared_error seq_numpy model_data model_data
  = Ok (@np_mean seq_numpy (replicate (length model_data) 0%float)).
Proof.
  apply (@absolute_error_of_itself seq_numpy model_data).
  repeat constructor.
Defined.

(** ** Swapping the operands of a difference *)

Lemma binary_round_aux_opp (s : bool) (m e : Z) (l : location) :
  binary_round_aux prec emax (negb s) m e l
  = SFopp (binary_round_aux prec emax s m e l).
Proof.
  unfold binary_round_aux.
  destruct (shr_fexp prec emax m e l) as [mrs' e'].
  destruct (shr_fexp prec emax _ e' loc_Exact) as [mrs'' e''].
  destruct (shr_m mrs'') as [|p|p]; try reflexivity.
  destruct (e'' <=? emax - prec)%Z; reflexivity.
Qed.

Lemma binary_normalize_opp (z e : Z) :
  binary_normalize prec emax (- z) e false
  = SFopp (binary_normalize prec emax z e false) ∨
  binary_normalize prec emax (- z) e false
  = binary_normalize prec emax z e false.
Proof.
  destruct z as [|p|p]; simpl; [right; reflexivity| |]; left;
    unfold binary_round;
    destruct (shl_align p e _) as [mz ez].
  - apply (binary_round_aux_opp false).
  - rewrite (binary_round_aux_opp false).
    destruct (binary_round_aux prec emax false (Z.pos mz) ez loc_Exact)
      as [s|s| |s m' e']; simpl; rewrite ?Bool.negb_involutive; reflexivity.
Qed.

Lemma SFsub_swap (x y : spec_float) :
  SF64sub y x = SFopp (SF64sub x y) ∨ SF64sub y x = SF64sub x y.
Proof.
  unfold SF64sub.
  destruct x as [sx|sx| |sx mx ex], y as [sy|sy| |sy my ey]; simpl;
    try (destruct sx, sy; simpl; auto; fail);
    try (destruct sx; simpl; auto; fail);
    try (destruct sy; simpl; auto; fail); auto.
  rewrite (Z.min_comm ey ex).
  set (a := cond_Zopp sx (Z.pos (fst (shl_align mx ex (Z.min ex ey))))).
  set (b := cond_Zopp sy (Z.pos (fst (shl_align my ey (Z.min ex ey))))).
  replace (b - a)%Z with (- (a - b))%Z by lia.
  apply binary_normalize_opp.
Qed.

Lemma SFmul_opp (x : spec_float) :
  SF64mul (SFopp x) (SFopp x) = SF64mul x x.
Proof.
  unfold SF64mul. destruct x as [s|s| |s m e]; simpl;
    try destruct s; reflexivity.
Qed.

(** [(a - b)^2] and [(b - a)^2] are the same binary64 value. *)
Lemma square_sub_swap (a b : float) :
  py.square (a - b) = py.square (b - a).
Proof.
  unfold py.square. apply Prim2SF_inj.
  rewrite !mul_spec, !sub_spec.
  destruct (SFsub_swap (Prim2SF b) (Prim2SF a)) as [-> | ->];
    [rewrite SFmul_opp|]; reflexivity.
Qed.

Lemma zip_square_sub_swap (x y : list float) :
  map py.square (zip_with PrimFloat.sub x y)
  = map py.square (zip_with PrimFloat.sub y x).
Proof.
  revert y. induction x as [|a x IH]; intros [|b y]; simpl;
    try reflexivity.
  rewrite square_sub_swap, IH. reflexivity.
Qed.

Lemma broadcast_square_sub_swap (x y : list float) :
  (d ← py.broadcast PrimFloat.sub x y; Ok (map py.square d))
  = (d ← py.broadcast PrimFloat.sub y x; Ok (map py.square d)).
Proof.
  unfold py.broadcast. rewrite (Nat.eqb_sym (length y) (length x)).
  destruct (length x =? length y) eqn:Hlen.
  - rewrite !bind_Ok, zip_square_sub_swap. reflexivity.
  - destruct x as [|a [|a' x]], y as [|b [|b' y]];
      try reflexivity; try discriminate.
    + rewrite ?bind_Ok. f_equal. rewrite !map_map.
      apply map_ext. intros v. apply square_sub_swap.
    + rewrite ?bind_Ok. f_equal. rewrite !map_map.
      apply map_ext. intros v. apply square_sub_swap.
Qed.

(** X22. The mean squared error does not depend on the order of its
    two arguments: [mean_squared_error(x, x_true)] and
    [mean_squared_error(x_true, x)] are the same binary64 value, or
    raise the same exception, for all arrays. *)
Theorem mean_squared_error_symmetric `{NumPy} (x x_true : list float) :
  statistics.mean_squared_error x x_true
  = statistics.mean_squared_error x_true x.
Proof.
  unfold statistics.mean_squared_error, statistics.absolute_error.
  pose proof (broadcast_square_sub_swap x x_true) as Hswap.
  destruct (py.broadcast PrimFloat.sub x x_true) as [d|e];
    destruct (py.broadcast PrimFloat.sub x_true x) as [d'|e'];
    rewrite ?bind_Ok, ?bind_Raise in *; try discriminate.
  - injection Hswap as ->. reflexivity.
  - injection Hswap as ->. reflexivity.
Qed.

(** * water.py: the header line *)

Example header_index_of_a_file :
  water.header_index
    ["WATER output"; tab_separated ["Date"; "Discharge (cfs)"];
     tab_separated ["4/1/2014"; "5.5"]]
  = Some 1.
Proof. reflexivity. Qed.

Lemma header_step_header (state : option nat * nat) (line : string) :
  is_header line →
  water.header_step water.date_code state line = (Some state.2, state.2).
Proof.
  unfold is_header, water.header_step. intros ->.
  rewrite String.eqb_refl. reflexivity.
Qed.

Lemma header_step_other (state : option nat * nat) (line : string) :
  ¬ is_header line →
  water.header_step water.date_code state line = (state.1, state.2 + 1).
Proof.
  unfold is_header, water.header_step. intros Hne.
  destruct (String.eqb_spec water.date_code (water.first_field line))
    as [Heq|_]; [|reflexivity].
  exfalso. apply Hne. symmetry. exact Heq.
Qed.

Lemma header_loop_other (lines : list string) (state : option nat * nat) :
  Forall (λ line, ¬ is_header line) lines →
  fold_left (water.header_step water.date_code) lines state
  = (state.1, state.2 + length lines).
Proof.
  intros Hall. revert state.
  induction Hall as [|line lines Hline _ IH]; intros [idx k]; simpl.
  - f_equal. lia.
  - rewrite (header_step_other _ _ Hline), IH. simpl. f_equal. lia.
Qed.

Lemma header_loop_count (lines : list string) (state : option nat * nat) :
  (fold_left (water.header_step water.date_code) lines state).2
  = state.2 + length (filter (λ line, ¬ is_header line) lines).
Proof.
  revert state. induction lines as [|line lines IH]; intros [idx k]; simpl.
  - lia.
  - rewrite IH. destruct (decide (is_header line)) as [Hh|Hh].
    + rewrite (header_step_header _ _ Hh).
      rewrite filter_cons_False by tauto. reflexivity.
    + rewrite (header_step_other _ _ Hh).
      rewrite filter_cons_True by exact Hh. simpl. lia.
Qed.

Lemma header_loop_unbound (lines : list string) (state : option nat * nat) :
  (fold_left (water.header_step water.date_code) lines state).1 = None ↔
  state.1 = None ∧ Forall (λ line, ¬ is_header line) lines.
Proof.
  revert state. induction lines as [|line lines IH]; intros [idx k]; simpl.
  - split; [intros ->; split; [reflexivity|constructor]|].
    intros [-> _]. reflexivity.
  - rewrite IH. destruct (decide (is_header line)) as [Hh|Hh].
    + rewrite (header_step_header _ _ Hh). simpl. split.
      * intros [Hs _]. discriminate.
      * intros [_ Hall]. inversion Hall; subst. contradiction.
    + rewrite (header_step_other _ _ Hh). simpl. split.
      * intros [-> Hall]. split; [reflexivity|constructor; assumption].
      * intros [-> Hall]. inversion Hall; subst.
        split; [reflexivity|assumption].
Qed.

(** X23. The search for the header line of [read_water] leaves [idx]
    unbound exactly when no line of the file has ["Date"] as its first
    tab-separated field. *)
Theorem header_index_unbound (dataFile : list string) :
  water.header_index dataFile = None ↔
  Forall (λ line, water.first_field line ≠ "Date") dataFile.
Proof.
  unfold water.header_index. rewrite header_loop_unbound. simpl.
  split; [intros [_ Hall]; exact Hall|].
  intros Hall. split; [reflexivity|exact Hall].
Qed.

(** X24. The index found by the header search of [read_water] is the
    number of lines before the last header line that are not header
    lines themselves: the position of the header when it is the only
    line starting with the field ["Date"], and a smaller index, by one
    for every earlier such line, otherwise. *)
Theorem header_index_last_header
    (before after : list string) (header : string) :
  water.first_field header = "Date" →
  Forall (λ line, water.first_field line ≠ "Date") after →
  water.header_index (before ++ header :: after)
  = Some (length before
          - length (filter (λ line, water.first_field line = "Date") before))
  ∧ (Forall (λ line, water.first_field line ≠ "Date") before →
     water.header_index (before ++ header :: after) = Some (length before)).
Proof.
  intros Hheader Hafter.
  assert (water.header_index (before ++ header :: after)
          = Some (length (filter (λ line, ¬ is_header line) before)))
    as Hidx.
  { unfold water.header_index. rewrite fold_left_app. simpl.
    rewrite (header_step_header _ _ Hheader).
    rewrite (header_loop_other after _ Hafter). simpl.
    rewrite header_loop_count. reflexivity. }
  assert (length before
          = length (filter (λ line, water.first_field line = "Date") before)
            + length (filter (λ line, ¬ is_header line) before)) as Hsplit.
  { clear. induction before as [|line before IH]; [reflexivity|].
    destruct (decide (is_header line)) as [Hh|Hh].
    - rewrite filter_cons_True by exact Hh.
      rewrite (filter_cons_False (λ line, ¬ is_header line)) by tauto.
      simpl. rewrite IH at 1. reflexivity.
    - rewrite filter_cons_False by exact Hh.
      rewrite (filter_cons_True (λ line, ¬ is_header line)) by exact Hh.
      simpl. rewrite IH at 1. lia. }
  split.
  - rewrite Hidx. f_equal. lia.
  - intros Hbefore. rewrite Hidx. f_equal.
    rewrite (filter_all (λ line, ¬ is_header line) before Hbefore).
    reflexivity.
Qed.

Lemma header_index_last_header_witness :
  water.header_index
    (["Date of run"; tab_separated ["Date"; "old header"]] ++
     tab_separated ["Date"; "Discharge (cfs)"] ::
     [tab_separated ["4/1/2014"; "5.5"]])
  = Some (length ["Date of run"; tab_separated ["Date"; "old header"]]
          - length (filter (λ line, water.first_field line = "Date")
                      ["Date of run"; tab_separated ["Date"; "old header"]]))
  ∧ (Forall (λ line, water.first_field line ≠ "Date")
       ["Date of run"; tab_separated ["Date"; "old header"]] →
     water.header_index
       (["Date of run"; tab_separated ["Date"; "old header"]] ++
        tab_separated ["Date"; "Discharge (cfs)"] ::
        [tab_separated ["4/1/2014"; "5.5"]])
     = Some (length ["Date of run"; tab_separated ["Date"; "old header"]])).
Proof.
  apply (header_index_last_header
           ["Date of run"; tab_separated ["Date"; "old header"]]
           [tab_separated ["4/1/2014"; "5.5"]]
           (tab_separated ["Date"; "Discharge (cfs)"])).
  - reflexivity.
  - repeat constructor. discriminate.
Defined.

(** * Two more properties *)

(** X25. For non-empty series whose first date is not after their last
    one, the range returned by [find_start_end_dates] is a proper window
    ([start <= end]) exactly when the two series overlap; for disjoint
    series the start date comes after the end date. The start date is
    the first date of one of the series and the end date the last date
    of one of them. *)
Theorem find_start_end_dates_overlap_iff
    (model_dates observed_dates : list Z) (m0 ml o0 ol : Z) :
  head model_dates = Some m0 → last model_dates = Some ml →
  head observed_dates = Some o0 → last observed_dates = Some ol →
  (m0 ≤ ml)%Z → (o0 ≤ ol)%Z →
  ∃ start_date end_date,
    helpers.find_start_end_dates model_dates observed_dates
    = Ok (start_date, end_date) ∧
    ((start_date ≤ end_date)%Z ↔ (m0 ≤ ol ∧ o0 ≤ ml)%Z) ∧
    (start_date = m0 ∨ start_date = o0) ∧
    (end_date = ml ∨ end_date = ol).
Proof.
  intros Hm0 Hml Ho0 Hol Hm Ho.
  exists (Z.max m0 o0), (Z.min ml ol).
  split; [apply find_start_end_dates_range; assumption|].
  repeat split; try lia.
Qed.

Lemma find_start_end_dates_overlap_iff_witness :
  ∃ start_date end_date,
    helpers.find_start_end_dates [1; 2; 3]%Z [7; 8; 9]%Z
    = Ok (start_date, end_date) ∧
    ((start_date ≤ end_date)%Z ↔ (1 ≤ 9 ∧ 7 ≤ 3)%Z) ∧
    (start_date = 1%Z ∨ start_date = 7%Z) ∧
    (end_date = 3%Z ∨ end_date = 9%Z).
Proof.
  apply (find_start_end_dates_overlap_iff [1; 2; 3]%Z [7; 8; 9]%Z 1 3 7 9);
    first [reflexivity | lia].
Defined.

(** X26. On non-empty arrays of equal length no statistic of
    [statistics.py] that is computed entry by entry raises, whatever the
    values are: a zero reference value or a zero variance gives an
    infinity or a NaN in the result, never an exception. *)
Theorem statistics_never_raise `{NumPy} (x x_true : list float) :
  length x = length x_true → x ≠ [] →
  ∃ abs rel pct pd mse nse,
    statistics.absolute_error x x_true = Ok abs ∧
    statistics.relative_error x x_true = Ok rel ∧
    statistics.percent_error x x_true = Ok pct ∧
    statistics.percent_difference x x_true = Ok pd ∧
    statistics.mean_squared_error x x_true = Ok mse ∧
    statistics.nash_sutcliffe x x_true = Ok (py.Float nse).
Proof.
  intros Hlen Hne.
  assert (∃ nse, statistics.nash_sutcliffe x x_true = Ok (py.Float nse))
    as [nse Hnse].
  { unfold statistics.nash_sutcliffe, py.broadcast.
    rewrite <- Hlen, Nat.eqb_refl, bind_Ok.
    destruct x as [|a x]; [contradiction|].
    destruct x_true as [|b x_true]; [discriminate|].
    destruct (sum_float
                (map py.square (zip_with PrimFloat.sub (b :: x_true) (a :: x))))
      as [num ->]; [simpl; discriminate|].
    destruct (sum_float
                (map py.square
                   (map (λ o, o - np_mean (b :: x_true))%float
                      (b :: x_true))))
      as [den ->]; [simpl; discriminate|].
    simpl. eauto. }
  do 5 eexists. exists nse.
  split; [apply absolute_error_equal_lengths, Hlen|].
  split; [apply relative_error_equal_lengths, Hlen|].
  split.
  { unfold statistics.percent_error.
    rewrite relative_error_equal_lengths by exact Hlen. reflexivity. }
  split; [apply percent_difference_equal_lengths, Hlen|].
  split.
  { unfold statistics.mean_squared_error.
    rewrite absolute_error_equal_lengths by exact Hlen. reflexivity. }
  exact Hnse.
Qed.

(** A zero reference value and a constant reference series. *)
Example zero_reference_values :
  statistics.relative_error [1; 0]%float [0; 0]%float
  = Ok [infinity; nan]%float ∧
  @statistics.nash_sutcliffe seq_numpy [1; 2]%float [3; 3]%float
  = Ok (py.Float neg_infinity).
Proof. split; vm_compute; reflexivity. Qed.

Lemma statistics_never_raise_witness :
  ∃ abs rel pct pd mse nse,
    statistics.absolute_error [1; 0]%float [0; 0]%float = Ok abs ∧
    statistics.relative_error [1; 0]%float [0; 0]%float = Ok rel ∧
    statistics.percent_error [1; 0]%float [0; 0]%float = Ok pct ∧
    statistics.percent_difference [1; 0]%float [0; 0]%float = Ok pd ∧
    @statistics.mean_squared_error seq_numpy [1; 0]%float [0; 0]%float
    = Ok mse ∧
    @statistics.nash_sutcliffe seq_numpy [1; 0]%float [0; 0]%float
    = Ok (py.Float nse).
Proof.
  apply (@statistics_never_raise seq_numpy [1; 0]%float [0; 0]%float).
  - reflexivity.
  - discriminate.
Defined.
